(** * KULScheduleToICS: the table scanner and the timestamp reconstruction

    A shallow embedding of [KULpubScheduleToICS.py] and [calevent.py].

    Python text is a sequence of code points; here a code point is an
    [ascii] (0..255, i.e. the Latin-1 range) and a text is a [list ascii].
    The character classes below are Python 3's classes for [str] patterns
    restricted to that range.  Exceptions are the [Raise] outcome of an
    error monad. *)

From Stdlib Require Import String Ascii List NArith ZArith Arith Bool Lia.
From Stdlib Require Import DecimalString.
Import ListNotations.

Set Implicit Arguments.

(* ================================================================= *)
(** ** Text *)

Definition pystr := list ascii.

(** A literal of the source. *)
Definition lit (s : string) : pystr := list_ascii_of_string s.

Definition code (c : ascii) : N := N_of_ascii c.

Definition in_range (lo hi : N) (c : ascii) : bool :=
  ((lo <=? code c) && (code c <=? hi))%N.

(** [\d] : the decimal digits (in Latin-1 only 0-9). *)
Definition is_digit (c : ascii) : bool := in_range 48 57 c.

(** [\s] and [str.isspace]: TAB..CR, FS..US, space, NEL, NBSP. *)
Definition is_space (c : ascii) : bool :=
  in_range 9 13 c || in_range 28 32 c || (code c =? 133)%N || (code c =? 160)%N.

(** [\w] : alphanumerics and the underscore. *)
Definition is_word (c : ascii) : bool :=
  is_digit c || in_range 65 90 c || (code c =? 95)%N || in_range 97 122 c
  || (code c =? 170)%N || in_range 178 179 c || (code c =? 181)%N
  || in_range 185 186 c || in_range 188 190 c
  || in_range 192 214 c || in_range 216 246 c || in_range 248 255 c.

(** [str.lower] on one code point. *)
Definition lower_char (c : ascii) : ascii :=
  if in_range 65 90 c || (in_range 192 222 c && negb (code c =? 215)%N)
  then ascii_of_N (code c + 32) else c.

Definition lower (s : pystr) : pystr := map lower_char s.

Fixpoint str_eqb (a b : pystr) : bool :=
  match a, b with
  | [], [] => true
  | x :: a', y :: b' => Ascii.eqb x y && str_eqb a' b'
  | _, _ => false
  end.

(** [str.lstrip] / [str.strip] with no argument. *)
Fixpoint lstrip (s : pystr) : pystr :=
  match s with
  | c :: s' => if is_space c then lstrip s' else s
  | [] => []
  end.

Definition rstrip (s : pystr) : pystr := rev (lstrip (rev s)).

Definition strip (s : pystr) : pystr := rstrip (lstrip s).

(** [str.zfill(width)] : zeros go after a leading sign. *)
Definition zfill (width : nat) (s : pystr) : pystr :=
  let pad := repeat "0"%char (width - length s) in
  match s with
  | c :: s' =>
      if Ascii.eqb c "+" || Ascii.eqb c "-" then c :: pad ++ s' else pad ++ s
  | [] => pad
  end.

(** [str(n)] and [int(s)] for a non-negative integer. *)
Definition str_of_N (n : N) : pystr :=
  lit (NilZero.string_of_uint (N.to_uint n)).

Fixpoint int_digits (acc : N) (s : pystr) : N :=
  match s with
  | c :: s' => int_digits (acc * 10 + (code c - 48)) s'
  | [] => acc
  end.

(** [int(s)] on a text of decimal digits. *)
Definition int_of (s : pystr) : N := int_digits 0 s.

(* ================================================================= *)
(** ** Exceptions *)

Inductive exn :=
| IndexError | AttributeError | TypeError | ParserError | ValueError
| OverflowError.

Inductive result (A : Type) :=
| Ok (a : A)
| Raise (e : exn).

Arguments Ok {A} a.
Arguments Raise {A} e.

Definition bind {A B} (m : result A) (f : A -> result B) : result B :=
  match m with
  | Ok a => f a
  | Raise e => Raise e
  end.

Notation "x <- m ;; f" := (bind m (fun x => f))
  (at level 61, m at next level, right associativity).

Definition raised {A} (r : result A) : Prop := exists e, r = Raise e.

(** [lst[i]] for a non-negative index. *)
Definition index {A} (l : list A) (i : nat) : result A :=
  match nth_error l i with
  | Some a => Ok a
  | None => Raise IndexError
  end.

(* ================================================================= *)
(** ** Regular expressions: the fragment the patterns use

    A pattern is a sequence of items; an item is a literal character, a
    greedy repetition of a character class, or a capturing group of such
    atoms.  Matching is the backtracking search of [re]: a repetition
    first takes as many characters as it can and gives them back one by
    one when the rest of the pattern fails. *)

Inductive atom :=
| Chr (c : ascii)
| Rep (cls : ascii -> bool) (lo : nat) (hi : option nat).

Inductive item :=
| Plain (a : atom)
| Group (g : list atom).

Definition regex := list item.

Definition plus (cls : ascii -> bool) : atom := Rep cls 1 None.
Definition star (cls : ascii -> bool) : atom := Rep cls 0 None.
Definition exactly (n : nat) (cls : ascii -> bool) : atom := Rep cls n (Some n).

Section Matcher.
Variable R : Type.

Fixpoint rep (cls : ascii -> bool) (lo : nat) (hi : option nat)
         (s : pystr) (k : pystr -> option R) {struct s} : option R :=
  let stop := match lo with O => k s | S _ => None end in
  match hi with
  | Some O => stop
  | _ =>
      match s with
      | c :: s' =>
          if cls c then
            match rep cls (pred lo) (option_map pred hi) s' k with
            | Some r => Some r
            | None => stop
            end
          else stop
      | [] => stop
      end
  end.

Definition m_atom (a : atom) (s : pystr) (k : pystr -> option R) : option R :=
  match a with
  | Chr c =>
      match s with
      | c' :: s' => if Ascii.eqb c c' then k s' else None
      | [] => None
      end
  | Rep cls lo hi => rep cls lo hi s k
  end.

Fixpoint m_atoms (g : list atom) (s : pystr) (k : pystr -> option R)
  : option R :=
  match g with
  | [] => k s
  | a :: g' => m_atom a s (fun s' => m_atoms g' s' k)
  end.

(** The text consumed between [s] and its suffix [s']. *)
Definition consumed (s s' : pystr) : pystr :=
  firstn (length s - length s') s.

Fixpoint m_items (r : regex) (s : pystr) (caps : list pystr)
         (k : pystr -> list pystr -> option R) : option R :=
  match r with
  | [] => k s caps
  | Plain a :: r' => m_atom a s (fun s' => m_items r' s' caps k)
  | Group g :: r' =>
      m_atoms g s (fun s' => m_items r' s' (caps ++ [consumed s s']) k)
  end.
End Matcher.

(** [re.match(r, s)]: anchored at the start, the groups in order. *)
Definition re_match (r : regex) (s : pystr) : option (list pystr) :=
  m_items r s [] (fun _ caps => Some caps).

(** A match that has to reach the end of the text. *)
Definition re_fullmatch (r : regex) (s : pystr) : option (list pystr) :=
  m_items r s [] (fun s' caps => match s' with [] => Some caps | _ => None end).

(** [m[i]] : group [i] (from 1) of a match object; [None[i]] raises. *)
Definition group (m : option (list pystr)) (i : nat) : result pystr :=
  match m with
  | None => Raise TypeError
  | Some caps =>
      match nth_error caps (i - 1) with
      | Some g => Ok g
      | None => Raise IndexError
      end
  end.

(** [REGEXPR_TIME_RANGE = r"(\d+:\d+)\s*\w+\s*(\d+:\d+)"] *)
Definition REGEXPR_TIME_RANGE : regex :=
  [ Group [plus is_digit; Chr ":"; plus is_digit];
    Plain (star is_space); Plain (plus is_word); Plain (star is_space);
    Group [plus is_digit; Chr ":"; plus is_digit] ].

(** [REGEXPR_Date = r"(\d+)\.(\d+)"] *)
Definition REGEXPR_Date : regex :=
  [ Group [plus is_digit]; Plain (Chr "."); Group [plus is_digit] ].

(* ================================================================= *)
(** ** Timestamps (the [arrow] collaborator)

    An [Arrow] is kept as its calendar fields and the offset of its zone
    from UTC, in minutes east.  Seconds are always zero for the texts this
    program parses.  A text without offset is parsed into a timestamp
    labelled UTC, whatever the zone of the machine. *)

Record Arrow := mkArrowTz {
  year : N; month : N; day : N; hour : N; minute : N;
  utcoffset : Z
}.

(** The timestamp with these calendar fields labelled UTC. *)
Abbreviation mkArrow y mo d h mi := (mkArrowTz y mo d h mi 0%Z).

Definition is_leap (y : N) : bool :=
  ((y mod 4 =? 0) && (negb (y mod 100 =? 0) || (y mod 400 =? 0)))%N.

Definition days_in_month (y m : N) : N :=
  match m with
  | 2 => if is_leap y then 29 else 28
  | 4 | 6 | 9 | 11 => 30
  | _ => 31
  end%N.

(** [datetime(year, month, day, hour, minute)], with no zone given, which
    [arrow] labels UTC: [ValueError] out of range. *)
Definition datetime (y mo d h mi : N) : result Arrow :=
  if ((1 <=? y) && (y <=? 9999) && (1 <=? mo) && (mo <=? 12)
      && (1 <=? d) && (d <=? days_in_month y mo)
      && (h <=? 23) && (mi <=? 59))%N
  then Ok (mkArrow y mo d h mi)
  else Raise ValueError.

(** [dt + timedelta(days=1)] *)
Definition next_day (t : Arrow) : result Arrow :=
  if (day t <? days_in_month (year t) (month t))%N
  then Ok (mkArrowTz (year t) (month t) (day t + 1) (hour t) (minute t)
             (utcoffset t))
  else if (month t <? 12)%N
  then Ok (mkArrowTz (year t) (month t + 1) 1 (hour t) (minute t)
             (utcoffset t))
  else if (year t <? 9999)%N
  then Ok (mkArrowTz (year t + 1) 1 1 (hour t) (minute t) (utcoffset t))
  else Raise OverflowError.

(** The parser's [_build_datetime]: [24:00] is midnight at the end of the
    day; any other use of hour 24 is refused before the date is built. *)
Definition build_datetime (y mo d h mi : N) : result Arrow :=
  if (h =? 24)%N then
    if (mi =? 0)%N then t <- datetime y mo d 0 0 ;; next_day t
    else Raise ParserError
  else datetime y mo d h mi.

(** The date-and-time formats of [parse_iso] that a text
    [<year>-<digits>-<digits> <digits>:<digits>] can meet, in the order they
    are tried: [YYYY-MM-DD HH:mm], [YYYY-M-DD HH:mm], [YYYY-M-D HH:mm]. *)
Definition iso_format (mo_lo d_lo : nat) : regex :=
  [ Group [exactly 4 is_digit]; Plain (Chr "-");
    Group [Rep is_digit mo_lo (Some 2)]; Plain (Chr "-");
    Group [Rep is_digit d_lo (Some 2)]; Plain (Chr " ");
    Group [exactly 2 is_digit]; Plain (Chr ":");
    Group [exactly 2 is_digit] ].

Definition iso_formats : list regex :=
  [ iso_format 2 2; iso_format 1 2; iso_format 1 1 ].

Fixpoint parse_multiformat (fmts : list regex) (s : pystr)
  : option (list pystr) :=
  match fmts with
  | [] => None
  | f :: fmts' =>
      match re_fullmatch f s with
      | Some caps => Some caps
      | None => parse_multiformat fmts' s
      end
  end.

(** [arrow.get(s)] for a text that is a date, one space and a time of
    digits and a colon, which is what [construct_timestamp] passes when the
    time comes from [REGEXPR_TIME_RANGE].  The formats of [arrow] with
    seconds, zone offsets, other separators or a time without colon are
    not reachable from such a text and are reported as [ParserError]
    here. *)
Definition arrow_get (s : pystr) : result Arrow :=
  match parse_multiformat iso_formats s with
  | Some [y; mo; d; h; mi] =>
      build_datetime (int_of y) (int_of mo) (int_of d) (int_of h) (int_of mi)
  | _ => Raise ParserError
  end.

(** The text [date_str] of [construct_timestamp]: the year, the month and
    the day of the date, each of the two filled with zeros to two
    characters.  The year read from the system clock ([arrow.get().year],
    the year of the current UTC time) is the parameter [cur_year]. *)
Definition date_str (cur_year : N) (date : pystr) : result pystr :=
  let m := re_match REGEXPR_Date date in
  m2 <- group m 2 ;;
  m1 <- group m 1 ;;
  Ok (str_of_N cur_year ++ lit "-" ++ zfill 2 m2 ++ lit "-" ++ zfill 2 m1).

(** [construct_timestamp(date, time)] *)
Definition construct_timestamp (cur_year : N) (date time : pystr)
  : result Arrow :=
  ds <- date_str cur_year date ;;
  arrow_get (ds ++ lit " " ++ time).

(** Order of two timestamps of one zone, as all timestamps of this
    program are. *)
Definition arrow_ltb (a b : Arrow) : bool :=
  match N.compare (year a) (year b) with
  | Lt => true | Gt => false
  | Eq =>
  match N.compare (month a) (month b) with
  | Lt => true | Gt => false
  | Eq =>
  match N.compare (day a) (day b) with
  | Lt => true | Gt => false
  | Eq =>
  match N.compare (hour a) (hour b) with
  | Lt => true | Gt => false
  | Eq => (minute a <? minute b)%N
  end end end end.

(* ================================================================= *)
(** ** [calevent.CalEvent] *)

Record CalEvent := mkCalEvent {
  description : pystr;
  location : pystr;
  dt_start : Arrow;
  dt_stop : Arrow
}.

(* ================================================================= *)
(** ** Parsed markup (the [bs4] collaborator) *)

#[warnings="-register-all"]
Inductive Node :=
| Tag (name : pystr) (contents : list Node)
| NavigableString (s : pystr).

(** [el.name] : a text node has the name [None]. *)
Definition node_name (n : Node) : option pystr :=
  match n with
  | Tag nm _ => Some nm
  | NavigableString _ => None
  end.

Definition named (nm : pystr) (n : Node) : bool :=
  match n with
  | Tag nm' _ => str_eqb nm' nm
  | NavigableString _ => false
  end.

(** [el.string]: a text node is its own string; a tag with exactly one
    child has the string of that child; any other tag has none. *)
Fixpoint node_string (n : Node) : option pystr :=
  match n with
  | NavigableString s => Some s
  | Tag _ [c] => node_string c
  | Tag _ _ => None
  end.

(** [tag.find(nm)] : the first descendant tag of that name, in document
    order. *)
Fixpoint find (nm : pystr) (n : Node) : option Node :=
  match n with
  | NavigableString _ => None
  | Tag _ cs =>
      (fix first_in (l : list Node) : option Node :=
         match l with
         | [] => None
         | c :: l' =>
             if named nm c then Some c
             else match find nm c with
                  | Some r => Some r
                  | None => first_in l'
                  end
         end) cs
  end.

(** [el.<nm>] : attribute access on a tag is [find]; a text node has no
    such attribute. *)
Definition getattr_tag (nm : pystr) (n : Node) : result (option Node) :=
  match n with
  | Tag _ _ => Ok (find nm n)
  | NavigableString _ => Raise AttributeError
  end.

(** [x.<attr>] where [x] may be [None]. *)
Definition deref {A} (o : option A) : result A :=
  match o with
  | Some a => Ok a
  | None => Raise AttributeError
  end.

Definition node_contents (n : Node) : list Node :=
  match n with
  | Tag _ cs => cs
  | NavigableString _ => []
  end.

(** [tag.find_all(nm, recursive=False)] *)
Definition find_all_children (nm : pystr) (n : Node) : list Node :=
  filter (named nm) (node_contents n).

(** [sanitize_string(str_in)] : [strip] of [None] raises. *)
Definition sanitize_string (str_in : option pystr) : result pystr :=
  s <- deref str_in ;; Ok (strip s).

(* ================================================================= *)
(** ** The table scanner ([KULpubScheduleToICS.py]) *)

(** [table.tr.find_all('td', recursive=False)] *)
Definition row_cells (table : Node) : result (list Node) :=
  tr <- getattr_tag (lit "tr") table ;;
  tr_el <- deref tr ;;
  Ok (find_all_children (lit "td") tr_el).

(** [[el.string for el in event_dates_row if el.string is not None]] *)
Fixpoint date_strings (event_dates_row : list Node) : list pystr :=
  match event_dates_row with
  | [] => []
  | el :: row' =>
      match node_string el with
      | Some s => s :: date_strings row'
      | None => date_strings row'
      end
  end.

(** The list comprehension that builds the events, one date at a time;
    the first date that fails ends it. *)
Fixpoint events_for (cur_year : N) (descr room : pystr)
         (time_start_str time_stop_str : pystr) (dates : list pystr)
  : result (list CalEvent) :=
  match dates with
  | [] => Ok []
  | date :: dates' =>
      start <- construct_timestamp cur_year date time_start_str ;;
      stop <- construct_timestamp cur_year date time_stop_str ;;
      rest <- events_for cur_year descr room time_start_str time_stop_str
                dates' ;;
      Ok (mkCalEvent descr room start stop :: rest)
  end.

(** [process_event_rows(table_lst, pos)] *)
Definition process_event_rows (cur_year : N) (table_lst : list Node)
           (pos : nat) : result (list CalEvent) :=
  detail_table <- index table_lst pos ;;
  event_detail_row <- row_cells detail_table ;;
  dates_table <- index table_lst (pos + 1) ;;
  event_dates_row <- row_cells dates_table ;;
  c1 <- index event_detail_row 1 ;;
  time_range_str <- sanitize_string (node_string c1) ;;
  c2 <- index event_detail_row 2 ;;
  room_str <- sanitize_string (node_string c2) ;;
  c3 <- index event_detail_row 3 ;;
  a <- getattr_tag (lit "a") c3 ;;
  a_el <- deref a ;;
  course_code_str <- sanitize_string (node_string a_el) ;;
  c4 <- index event_detail_row 4 ;;
  course_descr_str <- sanitize_string (node_string c4) ;;
  let date_strings_it := date_strings event_dates_row in
  let m := re_match REGEXPR_TIME_RANGE time_range_str in
  time_start_str <- group m 1 ;;
  time_stop_str <- group m 2 ;;
  events_for cur_year
    (course_descr_str ++ lit " (" ++ course_code_str ++ lit ")") room_str
    time_start_str time_stop_str date_strings_it.

(** What [is_week_row] hands back: [True], [False], or nothing at all when
    the chain of conditions falls through. *)
Inductive pyflag := PyTrue | PyFalse | PyNone.

(** Truth value of a [pyflag] in [if]. *)
Definition truthy (f : pyflag) : bool :=
  match f with
  | PyTrue => true
  | _ => false
  end.

Definition opt_str_eqb (o : option pystr) (s : pystr) : bool :=
  match o with
  | Some t => str_eqb t s
  | None => false
  end.

(** [is_week_row(tb_el)] *)
Definition is_week_row (tb_el : Node) : result pyflag :=
  nm <- deref (node_name tb_el) ;;
  if negb (str_eqb (lower nm) (lit "table")) then Ok PyFalse else
  tr <- getattr_tag (lit "tr") tb_el ;;
  match tr with
  | None => Ok PyFalse
  | Some tr_el =>
      td0 <- index (node_contents tr_el) 0 ;;
      td_el <- (if opt_str_eqb (node_string td0) ["010"%char]
                then index (node_contents tr_el) 1 else Ok td0) ;;
      match td_el with
      | NavigableString _ => Ok PyNone
      | Tag _ _ =>
          match find (lit "font") td_el with
          | None => Ok PyNone
          | Some font =>
              txt <- sanitize_string (node_string font) ;;
              if str_eqb txt (lit "Week") then Ok PyTrue else Ok PyNone
          end
      end
  end.

(** The loop of [find_week_row]: [l] is [table_lst[i:]]. *)
Fixpoint find_week_from (l : list Node) (i : nat) : result (option nat) :=
  match l with
  | [] => Ok None
  | tb :: l' =>
      w <- is_week_row tb ;;
      if truthy w then Ok (Some i) else find_week_from l' (S i)
  end.

(** [find_week_row(table_lst, pos)] *)
Definition find_week_row (table_lst : list Node) (pos : nat)
  : result (option nat) :=
  find_week_from (skipn pos table_lst) pos.

(** [x + n] where [x] may be [None]. *)
Definition add_int (x : option nat) (n : nat) : result nat :=
  match x with
  | Some i => Ok (i + n)
  | None => Raise TypeError
  end.

(** The [while] loop of [main].  It is iterated at most [fuel] times;
    [None] means the fuel ran out before the loop ended. *)
Fixpoint scan_loop (fuel : nat) (cur_year : N) (tables_lst : list Node)
         (stop_ind cur_ind : nat) (event_list : list CalEvent)
  : option (result (list CalEvent)) :=
  if cur_ind <? stop_ind then
    match fuel with
    | O => None
    | S fuel' =>
        match index tables_lst cur_ind with
        | Raise e => Some (Raise e)
        | Ok tb =>
            match is_week_row tb with
            | Raise e => Some (Raise e)
            | Ok w =>
                let cur := if truthy w then cur_ind + 2 else cur_ind in
                match process_event_rows cur_year tables_lst cur with
                | Raise e => Some (Raise e)
                | Ok evs =>
                    scan_loop fuel' cur_year tables_lst stop_ind (cur + 2)
                      (event_list ++ evs)
                end
            end
        end
    end
  else Some (Ok event_list).

(** The part of [main] that builds [event_list] from [tables_lst]. *)
Definition main_event_list (cur_year : N) (tables_lst : list Node)
  : option (result (list CalEvent)) :=
  match find_week_row tables_lst 0 with
  | Raise e => Some (Raise e)
  | Ok w =>
      match add_int w 2 with
      | Raise e => Some (Raise e)
      | Ok cur_ind =>
          let stop_ind := length tables_lst - 1 in
          scan_loop (length tables_lst) cur_year tables_lst stop_ind cur_ind []
      end
  end.

(** [[el for el in center_el.children if el.name == 'table']] *)
Definition tables_of (center_el : Node) : list Node :=
  filter (named (lit "table")) (node_contents center_el).

(* ----------------------------------------------------------------- *)
(** *** The page of the end-to-end scenario *)

Definition td (cs : list Node) : Node := Tag (lit "td") cs.
Definition text (s : string) : Node := NavigableString (lit s).
Definition table_row (cells : list Node) : Node :=
  Tag (lit "table") [Tag (lit "tr") cells].

Definition week_table : Node :=
  table_row [td [Tag (lit "font") [text "Week"]]].
Definition day_table : Node :=
  table_row [td [Tag (lit "font") [text "Monday"]]].
Definition detail_table (time_range : string) : Node :=
  table_row [td []; td [text time_range]; td [text "200B"];
             td [Tag (lit "a") [text "H00A0a"]]; td [text "Intro to Systems"]].
Definition dates_table : Node :=
  table_row [td [text "18.03"]; td [text "25.03"]].
Definition trailer_table : Node :=
  table_row [td [text "200B"]; td [text "Building B"]].

Definition scenario (time_range : string) : list Node :=
  [week_table; day_table; detail_table time_range; dates_table].

Definition scenario_events : list CalEvent :=
  [ mkCalEvent (lit "Intro to Systems (H00A0a)") (lit "200B")
      (mkArrow 2024 3 18 9 0) (mkArrow 2024 3 18 10 0);
    mkCalEvent (lit "Intro to Systems (H00A0a)") (lit "200B")
      (mkArrow 2024 3 25 9 0) (mkArrow 2024 3 25 10 0) ].

(* ================================================================= *)
(** ** Notions the claims are stated with *)

(** The text does not go on with a character of the class. *)
Definition head_not (cls : ascii -> bool) (s : pystr) : Prop :=
  match s with
  | [] => True
  | c :: _ => cls c = false
  end.

(** A non-empty text of the class. *)
Definition run_of (cls : ascii -> bool) (s : pystr) : Prop :=
  s <> [] /\ forallb cls s = true.

(** Exactly two digits, as in [DD], [MM], [HH]. *)
Definition two_digits (s : pystr) : Prop :=
  length s = 2 /\ forallb is_digit s = true.

(** A date text [DD.MM] naming a day of the year [y], and a time text
    [HH:MM] naming a minute of the day. *)
Definition date_text (y : N) (dd mm : pystr) : Prop :=
  two_digits dd /\ two_digits mm /\
  (1 <= int_of mm <= 12)%N /\
  (1 <= int_of dd <= days_in_month y (int_of mm))%N.

Definition time_text (hh nn : pystr) : Prop :=
  two_digits hh /\ two_digits nn /\
  (int_of hh <= 23)%N /\ (int_of nn <= 59)%N.

(** The year, written out, is four digits that read back as the year. *)
Definition year_text_ok (y : N) : bool :=
  (length (str_of_N y) =? 4) && forallb is_digit (str_of_N y)
  && (int_of (str_of_N y) =? y)%N.

Fixpoint holds_from (n : nat) (f : N -> bool) (start : N) : bool :=
  match n with
  | O => true
  | S n' => f start && holds_from n' f (N.succ start)
  end.

(** The text begins with digits, a dot and digits. *)
Definition begins_with_date (s : pystr) : Prop :=
  exists d m rest,
    s = d ++ "."%char :: m ++ rest
    /\ run_of is_digit d /\ run_of is_digit m.

(** The text begins with a time of digits, a colon and digits, optional
    white space, a word, optional white space and a second such time. *)
Definition begins_with_time_range (s : pystr) : Prop :=
  exists h1 m1 ws1 w ws2 h2 m2 rest,
    s = h1 ++ ":"%char :: m1 ++ ws1 ++ w ++ ws2 ++ h2 ++ ":"%char :: m2 ++ rest
    /\ run_of is_digit h1 /\ run_of is_digit m1
    /\ forallb is_space ws1 = true /\ run_of is_word w
    /\ forallb is_space ws2 = true
    /\ run_of is_digit h2 /\ run_of is_digit m2.

Fixpoint drop_while (cls : ascii -> bool) (s : pystr) : pystr :=
  match s with
  | c :: s' => if cls c then drop_while cls s' else s
  | [] => []
  end.

(** The text is a date [DD.MM] and nothing else: digits, a dot, digits. *)
Definition date_only (s : pystr) : bool :=
  match s with
  | c :: _ =>
      is_digit c
      && match drop_while is_digit s with
         | dot :: ((c' :: _) as m) =>
             Ascii.eqb dot "." && is_digit c'
             && match drop_while is_digit m with
                | [] => true
                | _ :: _ => false
                end
         | _ => false
         end
  | [] => false
  end.



(** A timestamp that names a minute of a day of the calendar. *)
Definition valid_arrow (t : Arrow) : Prop :=
  (1 <= year t <= 9999)%N /\ (1 <= month t <= 12)%N
  /\ (1 <= day t <= days_in_month (year t) (month t))%N
  /\ (hour t <= 23)%N /\ (minute t <= 59)%N.

(** The record comes from the event group at [pos]: its start and its end
    are the reconstruction of the text of one cell of the row of dates, at
    [pos + 1], with the first and with the second time of the time range,
    which is the trimmed text of the second cell of the row of details, at
    [pos]. *)
Definition from_group (cur_year : N) (table_lst : list Node) (pos : nat)
           (e : CalEvent) : Prop :=
  exists detail dates row cells c1 s cell date t_start t_stop,
    index table_lst pos = Ok detail /\ row_cells detail = Ok row
    /\ index row 1 = Ok c1 /\ node_string c1 = Some s
    /\ group (re_match REGEXPR_TIME_RANGE (strip s)) 1 = Ok t_start
    /\ group (re_match REGEXPR_TIME_RANGE (strip s)) 2 = Ok t_stop
    /\ index table_lst (pos + 1) = Ok dates /\ row_cells dates = Ok cells
    /\ In cell cells /\ node_string cell = Some date
    /\ construct_timestamp cur_year date t_start = Ok (dt_start e)
    /\ construct_timestamp cur_year date t_stop = Ok (dt_stop e).

(** A record that comes from an event group of the tables, and whose start
    and end name a minute of the calendar. *)
Definition reconstructed (cur_year : N) (table_lst : list Node)
           (e : CalEvent) : Prop :=
  (exists pos, from_group cur_year table_lst pos e)
  /\ valid_arrow (dt_start e) /\ valid_arrow (dt_stop e).

(** *** The scan as the specification words it

    The cursor [cur] runs over [tables] below [stop_ind].  At a week marker
    the pair of rows is the one two places further on, otherwise it is the
    one at the cursor; after a pair the cursor is two places behind the
    start of the pair.  Any failure ends the scan. *)
Inductive scan_spec (cur_year : N) (tables : list Node) (stop_ind : nat)
  : nat -> list CalEvent -> result (list CalEvent) -> Prop :=
| scan_stop cur acc :
    stop_ind <= cur ->
    scan_spec cur_year tables stop_ind cur acc (Ok acc)
| scan_week cur acc tb evs r :
    cur < stop_ind -> nth_error tables cur = Some tb ->
    is_week_row tb = Ok PyTrue ->
    process_event_rows cur_year tables (cur + 2) = Ok evs ->
    scan_spec cur_year tables stop_ind (cur + 2 + 2) (acc ++ evs) r ->
    scan_spec cur_year tables stop_ind cur acc r
| scan_pair cur acc tb w evs r :
    cur < stop_ind -> nth_error tables cur = Some tb ->
    is_week_row tb = Ok w -> w <> PyTrue ->
    process_event_rows cur_year tables cur = Ok evs ->
    scan_spec cur_year tables stop_ind (cur + 2) (acc ++ evs) r ->
    scan_spec cur_year tables stop_ind cur acc r
| scan_week_fails cur acc tb e :
    cur < stop_ind -> nth_error tables cur = Some tb ->
    is_week_row tb = Ok PyTrue ->
    process_event_rows cur_year tables (cur + 2) = Raise e ->
    scan_spec cur_year tables stop_ind cur acc (Raise e)
| scan_pair_fails cur acc tb w e :
    cur < stop_ind -> nth_error tables cur = Some tb ->
    is_week_row tb = Ok w -> w <> PyTrue ->
    process_event_rows cur_year tables cur = Raise e ->
    scan_spec cur_year tables stop_ind cur acc (Raise e)
| scan_classify_fails cur acc tb e :
    cur < stop_ind -> nth_error tables cur = Some tb ->
    is_week_row tb = Raise e ->
    scan_spec cur_year tables stop_ind cur acc (Raise e).

(** The outcome of the scan: it starts two places after the first week
    marker and stops at the last element of the sequence. *)
Definition scan_outcome (cur_year : N) (tables : list Node)
           (r : result (list CalEvent)) : Prop :=
  match find_week_row tables 0 with
  | Ok (Some i) =>
      scan_spec cur_year tables (length tables - 1) (i + 2) [] r
  | Ok None => r = Raise TypeError
  | Raise e => r = Raise e
  end.

(** *** The week marker as the specification words it *)

(** A text node of white space only. *)
Definition whitespace_only (n : Node) : bool :=
  match n with
  | NavigableString s => forallb is_space s
  | Tag _ _ => false
  end.

Definition first_non_whitespace (l : list Node) : option Node :=
  List.find (fun n => negb (whitespace_only n)) l.

(** "A table-like node whose first row's first non-whitespace cell, after
    trimming surrounding whitespace, contains exactly the text Week". *)
Definition week_marker_as_claimed (el : Node) : bool :=
  match el with
  | NavigableString _ => false
  | Tag nm _ =>
      str_eqb (lower nm) (lit "table")
      && match find (lit "tr") el with
         | None => false
         | Some row =>
             match first_non_whitespace (node_contents row) with
             | None => false
             | Some cell =>
                 match node_string cell with
                 | None => false
                 | Some s => str_eqb (strip s) (lit "Week")
                 end
             end
         end
  end.

(** The cell [is_week_row] looks at: the first child of the row, or the
    second one when the string of the first is exactly one newline. *)
Definition marker_cell (row : Node) : option Node :=
  match node_contents row with
  | [] => None
  | c0 :: rest =>
      if opt_str_eqb (node_string c0) ["010"%char] then nth_error rest 0
      else Some c0
  end.

(** What [is_week_row] accepts: a tag named [table] in any case, with a
    row, whose [marker_cell] is a tag that has a [font] descendant whose
    string, trimmed, is [Week]. *)
Definition week_marker (el : Node) : Prop :=
  exists nm cs row cnm ccs font txt,
    el = Tag nm cs /\ lower nm = lit "table"
    /\ find (lit "tr") el = Some row
    /\ marker_cell row = Some (Tag cnm ccs)
    /\ find (lit "font") (Tag cnm ccs) = Some font
    /\ node_string font = Some txt /\ strip txt = lit "Week".

(** A week table whose row has one space between the start of the row
    and the cell, and a week table whose cell holds the text with no [font]
    element around it. *)
Definition spaced_week_table : Node :=
  Tag (lit "table")
    [Tag (lit "tr")
       [NavigableString (lit " "); td [Tag (lit "font") [text "Week"]]]].

Definition plain_week_table : Node :=
  Tag (lit "table") [Tag (lit "tr") [td [text "Week"]]].

(** *** A well-formed event group *)

Definition has_text (cell : Node) : bool :=
  match node_string cell with
  | Some _ => true
  | None => false
  end.

(** A date cell is empty or holds a date text of the year. *)
Definition date_cell_ok (y : N) (cell : Node) : Prop :=
  match node_string cell with
  | None => True
  | Some d => exists dd mm, d = dd ++ "."%char :: mm /\ date_text y dd mm
  end.

(** The event-detail row at [pos] has its five cells: a time range
    [hh1:nn1 <word> hh2:nn2], the room, the course code inside a link and
    the description; the row after it has the date [cells]. *)
Record well_formed_group (y : N) (table_lst : list Node) (pos : nat)
       (descr room code hh1 nn1 hh2 nn2 : pystr) (cells : list Node)
  : Prop := {
  wf_year : (1000 <= y <= 9999)%N;
  wf_times : time_text hh1 nn1 /\ time_text hh2 nn2;
  wf_dates : Forall (date_cell_ok y) cells;
  wf_rows :
    exists detail dates c0 c1 c2 c3 c4 more a_el
           time_txt room_txt code_txt descr_txt ws1 w ws2,
      nth_error table_lst pos = Some detail
      /\ nth_error table_lst (pos + 1) = Some dates
      /\ row_cells detail = Ok (c0 :: c1 :: c2 :: c3 :: c4 :: more)
      /\ row_cells dates = Ok cells
      /\ node_string c1 = Some time_txt
      /\ strip time_txt
         = hh1 ++ ":"%char :: nn1 ++ ws1 ++ w ++ ws2 ++ hh2 ++ ":"%char :: nn2
      /\ forallb is_space ws1 = true
      /\ run_of (fun c => is_word c && negb (is_digit c)) w
      /\ run_of is_space ws2
      /\ node_string c2 = Some room_txt /\ strip room_txt = room
      /\ getattr_tag (lit "a") c3 = Ok (Some a_el)
      /\ node_string a_el = Some code_txt /\ strip code_txt = code
      /\ node_string c4 = Some descr_txt /\ strip descr_txt = descr
}.

(** The record of a well-formed group for one date text. *)
Definition record_of (y : N) (descr room code hh1 nn1 hh2 nn2 : pystr)
           (e : CalEvent) (d : pystr) : Prop :=
  exists dd mm,
    d = dd ++ "."%char :: mm
    /\ e = mkCalEvent (descr ++ lit " (" ++ code ++ lit ")") room
             (mkArrow y (int_of mm) (int_of dd) (int_of hh1) (int_of nn1))
             (mkArrow y (int_of mm) (int_of dd) (int_of hh2) (int_of nn2)).

(* ================================================================= *)
(** ** The exporter ([calevent.py], with the [ics] collaborator)

    Of an [ics.Event] the four attributes the exporter sets are kept; a
    new event has none of them.  The setters of [begin] and [end] refuse a
    value that would put the end before the begin.  The events of a
    calendar form a set keyed by identifiers that are fresh for every
    event, so adding never merges two of them: the set is kept as the list
    of its additions. *)

Record Event := mkEvent {
  e_name : option pystr;
  e_begin : option Arrow;
  e_end : option Arrow;
  e_location : option pystr
}.

(** [ics.Event()] *)
Definition Event_new : Event := mkEvent None None None None.

(** [e.name = value] *)
Definition set_name (e : Event) (value : pystr) : Event :=
  mkEvent (Some value) (e_begin e) (e_end e) (e_location e).

(** [e.begin = value] : [ValueError] when the end is already set and the
    value is after it. *)
Definition set_begin (e : Event) (value : Arrow) : result Event :=
  match e_end e with
  | Some en =>
      if arrow_ltb en value then Raise ValueError
      else Ok (mkEvent (e_name e) (Some value) (e_end e) (e_location e))
  | None => Ok (mkEvent (e_name e) (Some value) (e_end e) (e_location e))
  end.

(** [e.end = value] : [ValueError] when the begin is already set and the
    value is before it. *)
Definition set_end (e : Event) (value : Arrow) : result Event :=
  match e_begin e with
  | Some b =>
      if arrow_ltb value b then Raise ValueError
      else Ok (mkEvent (e_name e) (e_begin e) (Some value) (e_location e))
  | None => Ok (mkEvent (e_name e) (e_begin e) (Some value) (e_location e))
  end.

(** [e.location = value] *)
Definition set_location (e : Event) (value : pystr) : Event :=
  mkEvent (e_name e) (e_begin e) (e_end e) (Some value).

(** [conv_to_ics_event(event)] *)
Definition conv_to_ics_event (event : CalEvent) : result Event :=
  let e := Event_new in
  let e := set_name e (description event) in
  e <- set_begin e (dt_start event) ;;
  e <- set_end e (dt_stop event) ;;
  Ok (set_location e (location event)).

(** The loop of [conv_to_ics_calendar]: [events] is [c.events] so far. *)
Fixpoint add_events (events : list Event) (e_lst : list CalEvent)
  : result (list Event) :=
  match e_lst with
  | [] => Ok events
  | e :: e_lst' =>
      ev <- conv_to_ics_event e ;;
      add_events (events ++ [ev]) e_lst'
  end.

(** [conv_to_ics_calendar(e_lst)] *)
Definition conv_to_ics_calendar (e_lst : list CalEvent) : result (list Event) :=
  add_events [] e_lst.

(* ================================================================= *)
(** ** Notions the further properties are stated with *)

(** A text with no white space at either end. *)
Definition trimmed (s : pystr) : Prop :=
  head_not is_space s /\ head_not is_space (rev s).

(** The element is classified, and not as a week row. *)
Definition not_week (tb : Node) : Prop :=
  exists w, is_week_row tb = Ok w /\ w <> PyTrue.

(** A record that does not end before it starts. *)
Definition ends_after_start (e : CalEvent) : Prop :=
  arrow_ltb (dt_stop e) (dt_start e) = false.

(** The event the exporter makes of a record. *)
Definition exported (e : CalEvent) : Event :=
  mkEvent (Some (description e)) (Some (dt_start e)) (Some (dt_stop e))
    (Some (location e)).

(** Positions of the pairs of rows a scan takes from the cursor [cur] on:
    each is at the cursor or two places further, and the cursor is then
    two places behind it. *)
Fixpoint steps_from (cur : nat) (ps : list nat) : Prop :=
  match ps with
  | [] => True
  | p :: ps' => (p = cur \/ p = cur + 2) /\ steps_from (p + 2) ps'
  end.

(** One of the two exceptions of a missing element or attribute. *)
Definition shape_error (e : exn) : Prop :=
  e = IndexError \/ e = AttributeError.

(** The minute of the day a time text [HH:MM] names. *)
Definition minute_of_day (hh nn : pystr) : N :=
  (int_of hh * 60 + int_of nn)%N.

(* ================================================================= *)
(** * Properties *)

(** ** The definitions on the texts of the schedule *)

Example time_range_to :
  re_match REGEXPR_TIME_RANGE (lit "09:00 to 10:00")
  = Some [lit "09:00"; lit "10:00"].
Proof. reflexivity. Qed.

Example time_range_glued :
  re_match REGEXPR_TIME_RANGE (lit "09:00to10:00")
  = Some [lit "09:00"; lit "0:00"].
Proof. reflexivity. Qed.

Example date_match :
  re_match REGEXPR_Date (lit "18.03") = Some [lit "18"; lit "03"].
Proof. reflexivity. Qed.

Example construct_15_03 :
  construct_timestamp 2024 (lit "15.03") (lit "09:30")
  = Ok (mkArrow 2024 3 15 9 30).
Proof. reflexivity. Qed.

Example construct_end_of_day :
  construct_timestamp 2024 (lit "31.12") (lit "24:00")
  = Ok (mkArrow 2025 1 1 0 0).
Proof. reflexivity. Qed.

Example construct_short_hour :
  construct_timestamp 2024 (lit "15.03") (lit "9:30") = Raise ParserError.
Proof. reflexivity. Qed.

Example construct_feb_30 :
  construct_timestamp 2024 (lit "30.02") (lit "09:30") = Raise ValueError.
Proof. reflexivity. Qed.

Example scenario_dash :
  main_event_list 2024 (scenario "09:00 - 10:00") = Some (Raise TypeError).
Proof. reflexivity. Qed.

Example scenario_word :
  main_event_list 2024 (scenario "09:00 to 10:00") = Some (Ok scenario_events).
Proof. reflexivity. Qed.


(** ** Character classes *)

Lemma space_not_digit c : is_space c = true -> is_digit c = false.
Proof.
  destruct c as [[] [] [] [] [] [] [] []]; vm_compute; congruence.
Qed.

Lemma space_not_word c : is_space c = true -> is_word c = false.
Proof.
  destruct c as [[] [] [] [] [] [] [] []]; vm_compute; congruence.
Qed.

Lemma word_not_space c : is_word c = true -> is_space c = false.
Proof.
  destruct c as [[] [] [] [] [] [] [] []]; vm_compute; congruence.
Qed.

Lemma digit_not_space c : is_digit c = true -> is_space c = false.
Proof.
  destruct c as [[] [] [] [] [] [] [] []]; vm_compute; congruence.
Qed.

Lemma digit_is_word c : is_digit c = true -> is_word c = true.
Proof.
  unfold is_word. intros ->. reflexivity.
Qed.

(** ** The matcher on a run of one class *)

Lemma head_not_run (cls cls' : ascii -> bool) a b :
  (forall c, cls' c = true -> cls c = false) ->
  run_of cls' a -> head_not cls (a ++ b).
Proof.
  intros Hd [Hne Ha]. destruct a as [|c a]; [congruence|].
  simpl in *. apply andb_true_iff in Ha. apply Hd, Ha.
Qed.

Lemma head_not_app (cls cls' : ascii -> bool) a b :
  (forall c, cls' c = true -> cls c = false) ->
  forallb cls' a = true -> head_not cls b -> head_not cls (a ++ b).
Proof.
  intros Hd Ha Hb. destruct a as [|c a]; [exact Hb|].
  simpl in *. apply andb_true_iff in Ha. apply Hd, Ha.
Qed.

Lemma head_not_cons (cls : ascii -> bool) c s :
  cls c = false -> head_not cls (c :: s).
Proof. intro H. exact H. Qed.

Section RepFacts.
Variable R : Type.
Variable cls : ascii -> bool.

(** A greedy unbounded repetition facing a whole run of its class takes
    the run when the rest of the pattern accepts what follows. *)
Lemma rep_run (run rest : pystr) (k : pystr -> option R) (r : R) :
  forall lo,
    forallb cls run = true -> lo <= length run ->
    head_not cls rest -> k rest = Some r ->
    rep cls lo None (run ++ rest) k = Some r.
Proof.
  induction run as [|c run IH]; intros lo Hrun Hlo Hrest Hk.
  - simpl in Hlo. assert (lo = 0) by lia. subst lo.
    destruct rest as [|c rest]; simpl; [exact Hk|].
    simpl in Hrest. rewrite Hrest. exact Hk.
  - simpl in Hrun. apply andb_true_iff in Hrun as [Hc Hrun].
    simpl. rewrite Hc.
    rewrite (IH (pred lo)); auto. simpl in Hlo. lia.
Qed.

(** A repetition of exactly [n] facing [n] characters of its class
    takes them, whatever follows. *)
Lemma rep_exact (run rest : pystr) (k : pystr -> option R) :
  forallb cls run = true ->
  rep cls (length run) (Some (length run)) (run ++ rest) k = k rest.
Proof.
  induction run as [|c run IH]; intros Hrun.
  - simpl. destruct rest; reflexivity.
  - simpl in Hrun. apply andb_true_iff in Hrun as [Hc Hrun].
    simpl. rewrite Hc, (IH Hrun). destruct (k rest); reflexivity.
Qed.

Lemma chr_match c (s : pystr) (k : pystr -> option R) :
  m_atom (Chr c) (c :: s) k = k s.
Proof. simpl. rewrite Ascii.eqb_refl. reflexivity. Qed.
End RepFacts.

Lemma consumed_app (a b : pystr) : consumed (a ++ b) b = a.
Proof.
  unfold consumed. rewrite length_app, Nat.add_sub.
  rewrite firstn_app, Nat.sub_diag, firstn_all. simpl. apply app_nil_r.
Qed.

Lemma consumed_app3 (a : pystr) c (b d : pystr) :
  consumed (a ++ c :: b ++ d) d = a ++ c :: b.
Proof.
  replace (a ++ c :: b ++ d) with ((a ++ c :: b) ++ d).
  - apply consumed_app.
  - rewrite <- app_assoc. reflexivity.
Qed.

(** ** What a match of the matcher tells about the text *)

Lemma rep_inv (R : Type) (cls : ascii -> bool) (k : pystr -> option R) (r : R) :
  forall s lo,
    rep cls lo None s k = Some r ->
    exists run rest,
      s = run ++ rest /\ forallb cls run = true /\ lo <= length run
      /\ k rest = Some r.
Proof.
  induction s as [|c s IH]; intros lo H; cbn [rep option_map] in H.
  - destruct lo; [|discriminate]. exists [], []. auto.
  - assert (Hstop : match lo with O => k (c :: s) | S _ => None end = Some r ->
                    exists run rest,
                      c :: s = run ++ rest /\ forallb cls run = true
                      /\ lo <= length run /\ k rest = Some r).
    { destruct lo; [|discriminate]. intros Hk. exists [], (c :: s). auto. }
    destruct (cls c) eqn:Hc; [|exact (Hstop H)].
    destruct (rep cls (pred lo) None s k) as [r'|] eqn:E; [|exact (Hstop H)].
    injection H as ->.
    destruct (IH _ E) as (run & rest & -> & Hrun & Hlo & Hk).
    exists (c :: run), rest. cbn [app forallb length]. rewrite Hc, Hrun.
    repeat split; auto. lia.
Qed.

Lemma run_of_length (cls : ascii -> bool) (s : pystr) :
  forallb cls s = true -> 1 <= length s -> run_of cls s.
Proof.
  intros H Hl. split; [|exact H]. destruct s; [cbn in Hl; lia | discriminate].
Qed.

Lemma time_group_inv (R : Type) (s : pystr) (k : pystr -> option R) (r : R) :
  m_atoms [plus is_digit; Chr ":"; plus is_digit] s k = Some r ->
  exists h m rest,
    s = h ++ ":"%char :: m ++ rest /\ run_of is_digit h /\ run_of is_digit m
    /\ k rest = Some r.
Proof.
  cbn [m_atoms m_atom plus]. intros H.
  apply rep_inv in H as (h & rest1 & -> & Hh & Hhl & H).
  destruct rest1 as [|c rest1]; [discriminate|].
  destruct (Ascii.eqb ":" c) eqn:Hc; [|discriminate].
  apply Ascii.eqb_eq in Hc. subst c.
  apply rep_inv in H as (m & rest & -> & Hm & Hml & H).
  exists h, m, rest. auto using run_of_length.
Qed.

(** The longest run of a class at the start of a text. *)
Lemma span_run (cls : ascii -> bool) (s : pystr) :
  exists run rest,
    s = run ++ rest /\ forallb cls run = true /\ head_not cls rest.
Proof.
  induction s as [|c s (run & rest & -> & Hrun & Hrest)].
  - exists [], []. repeat split.
  - destruct (cls c) eqn:Hc.
    + exists (c :: run), rest. cbn [app forallb]. rewrite Hc. auto.
    + exists [], (c :: run ++ rest). repeat split. exact Hc.
Qed.

(** ** The two patterns on well-formed text *)

(** [digits ":" digits] as one group. *)
Lemma time_group_match (R : Type) (h m rest : pystr)
      (k : pystr -> option R) (r : R) :
  run_of is_digit h -> run_of is_digit m -> head_not is_digit rest ->
  k rest = Some r ->
  m_atoms [plus is_digit; Chr ":"; plus is_digit] (h ++ ":"%char :: m ++ rest) k
  = Some r.
Proof.
  intros [Hh0 Hh] [Hm0 Hm] Hrest Hk.
  cbn [m_atoms m_atom plus].
  apply rep_run; auto.
  - destruct h; [congruence | simpl; lia].
  - reflexivity.
  - rewrite Ascii.eqb_refl. apply rep_run; auto.
    destruct m; [congruence | simpl; lia].
Qed.

Lemma date_match_ok (d m rest : pystr) :
  run_of is_digit d -> run_of is_digit m -> head_not is_digit rest ->
  re_match REGEXPR_Date (d ++ "."%char :: m ++ rest) = Some [d; m].
Proof.
  intros [Hd0 Hd] [Hm0 Hm] Hrest.
  unfold re_match, REGEXPR_Date. cbn [m_items m_atoms m_atom plus].
  apply rep_run; auto.
  - destruct d; [congruence | simpl; lia].
  - reflexivity.
  - rewrite Ascii.eqb_refl. apply rep_run; auto.
    + destruct m; [congruence | simpl; lia].
    + cbn. rewrite !consumed_app. reflexivity.
Qed.

(** The text of a time range the pattern is written for: two times
    [digits:digits] with, in between, optional white space, a word without
    digits and white space. *)
Lemma time_range_match_ok (h1 m1 ws1 w ws2 h2 m2 rest : pystr) :
  run_of is_digit h1 -> run_of is_digit m1 ->
  forallb is_space ws1 = true ->
  run_of (fun c => is_word c && negb (is_digit c)) w ->
  run_of is_space ws2 ->
  run_of is_digit h2 -> run_of is_digit m2 -> head_not is_digit rest ->
  re_match REGEXPR_TIME_RANGE
    (h1 ++ ":"%char :: m1 ++ ws1 ++ w ++ ws2 ++ h2 ++ ":"%char :: m2 ++ rest)
  = Some [h1 ++ ":"%char :: m1; h2 ++ ":"%char :: m2].
Proof.
  intros Hh1 Hm1 Hws1 Hw Hws2 Hh2 Hm2 Hrest.
  assert (Hww : forallb is_word w = true).
  { destruct Hw as [_ Hw]. rewrite forallb_forall in *.
    intros c Hc. apply Hw in Hc. apply andb_true_iff in Hc. tauto. }
  assert (Hw0 : w <> []) by apply Hw.
  unfold re_match, REGEXPR_TIME_RANGE. cbn [m_items].
  apply time_group_match; auto.
  { apply head_not_app with (cls' := is_space); auto using space_not_digit.
    apply head_not_run with (cls' := fun c => is_word c && negb (is_digit c));
      auto.
    intros c Hc. apply andb_true_iff in Hc as [_ Hc].
    now destruct (is_digit c). }
  cbn [m_atom star plus].
  apply rep_run; auto; [simpl; lia | |].
  { apply head_not_run with (cls' := is_word); auto using word_not_space.
    split; auto. }
  apply rep_run; auto.
  { destruct w; [congruence | simpl; lia]. }
  { apply head_not_run with (cls' := is_space); auto using space_not_word. }
  apply rep_run; auto; [apply Hws2 | simpl; lia | |].
  { apply head_not_run with (cls' := is_digit); auto using digit_not_space. }
  apply time_group_match; auto.
  cbn. rewrite !consumed_app3. reflexivity.
Qed.

(** ** Padding and numbers *)

Lemma digit_not_sign c :
  is_digit c = true -> (Ascii.eqb c "+" || Ascii.eqb c "-")%bool = false.
Proof.
  destruct c as [[] [] [] [] [] [] [] []]; vm_compute; congruence.
Qed.

Lemma zfill_digits n (s : pystr) :
  run_of is_digit s -> zfill n s = repeat "0"%char (n - length s) ++ s.
Proof.
  intros [Hne Hs]. destruct s as [|c s]; [congruence|].
  simpl in Hs. apply andb_true_iff in Hs as [Hc _].
  unfold zfill. rewrite (digit_not_sign _ Hc). reflexivity.
Qed.

Lemma forallb_repeat_zero k : forallb is_digit (repeat "0"%char k) = true.
Proof. induction k; simpl; auto. Qed.

Lemma zfill_run n (s : pystr) :
  run_of is_digit s -> run_of is_digit (zfill n s).
Proof.
  intros H. rewrite (zfill_digits n H). destruct H as [Hne Hs]. split.
  - destruct s; [congruence|]. intro E. apply app_eq_nil in E as [_ E].
    discriminate.
  - rewrite forallb_app, forallb_repeat_zero. exact Hs.
Qed.

Lemma zfill_length n (s : pystr) :
  run_of is_digit s -> length s <= n -> length (zfill n s) = n.
Proof.
  intros H Hn. rewrite (zfill_digits n H), length_app, repeat_length. lia.
Qed.

Lemma zfill_idem n (s : pystr) :
  run_of is_digit s -> zfill n (zfill n s) = zfill n s.
Proof.
  intros H. rewrite (zfill_digits n (zfill_run n H)).
  replace (n - length (zfill n s)) with 0; [reflexivity|].
  rewrite (zfill_digits n H), length_app, repeat_length. lia.
Qed.

Lemma int_of_zeros k (s : pystr) :
  int_of (repeat "0"%char k ++ s) = int_of s.
Proof.
  unfold int_of. induction k; simpl; auto.
Qed.

Lemma int_of_zfill n (s : pystr) :
  run_of is_digit s -> int_of (zfill n s) = int_of s.
Proof.
  intros H. rewrite (zfill_digits n H). apply int_of_zeros.
Qed.

Lemma holds_from_spec n f : forall start,
  holds_from n f start = true ->
  forall y, (start <= y < start + N.of_nat n)%N -> f y = true.
Proof.
  induction n as [|n IH]; intros start H y Hy; [lia|].
  simpl in H. apply andb_true_iff in H as [H0 H1].
  destruct (N.eq_dec y start) as [->|Hne]; [exact H0|].
  apply (IH _ H1). lia.
Qed.

Lemma year_text (y : N) :
  (1000 <= y <= 9999)%N -> year_text_ok y = true.
Proof.
  intros Hy.
  apply (@holds_from_spec (N.to_nat 9000) year_text_ok 1000%N).
  - vm_compute. reflexivity.
  - rewrite N2Nat.id. lia.
Qed.

(** ** [arrow.get] on a text of the first format *)

Section IsoFormat.
Variables y4 mm dd hh nn : pystr.
Hypothesis Hy : length y4 = 4 /\ forallb is_digit y4 = true.
Hypothesis Hmm : length mm = 2 /\ forallb is_digit mm = true.
Hypothesis Hdd : length dd = 2 /\ forallb is_digit dd = true.
Hypothesis Hhh : length hh = 2 /\ forallb is_digit hh = true.
Hypothesis Hnn : length nn = 2 /\ forallb is_digit nn = true.

Let iso_text : pystr :=
  y4 ++ "-"%char :: mm ++ "-"%char :: dd ++ " "%char :: hh
     ++ ":"%char :: nn.

Lemma rep_exact_n (R : Type) n run rest (k : pystr -> option R) :
  length run = n /\ forallb is_digit run = true ->
  rep is_digit n (Some n) (run ++ rest) k = k rest.
Proof. intros [<- H]. apply rep_exact, H. Qed.

Lemma iso_match :
  parse_multiformat iso_formats iso_text = Some [y4; mm; dd; hh; nn].
Proof.
  unfold iso_text, iso_formats, parse_multiformat, re_fullmatch, iso_format.
  rewrite <- (app_nil_r nn) at 1.
  cbn [m_items m_atoms m_atom exactly].
  rewrite rep_exact_n by exact Hy. rewrite Ascii.eqb_refl.
  rewrite rep_exact_n by exact Hmm. rewrite Ascii.eqb_refl.
  rewrite rep_exact_n by exact Hdd. rewrite Ascii.eqb_refl.
  rewrite rep_exact_n by exact Hhh. rewrite Ascii.eqb_refl.
  rewrite rep_exact_n by exact Hnn.
  rewrite !consumed_app. reflexivity.
Qed.

Lemma arrow_get_iso :
  arrow_get iso_text
  = build_datetime (int_of y4) (int_of mm) (int_of dd) (int_of hh)
      (int_of nn).
Proof. unfold arrow_get. rewrite iso_match. reflexivity. Qed.
End IsoFormat.

(** ** [construct_timestamp] on a date of digits *)

Lemma construct_timestamp_digits (y : N) (d m rest hh nn : pystr) :
  (1000 <= y <= 9999)%N ->
  run_of is_digit d -> length d <= 2 ->
  run_of is_digit m -> length m <= 2 ->
  head_not is_digit rest ->
  length hh = 2 /\ forallb is_digit hh = true ->
  length nn = 2 /\ forallb is_digit nn = true ->
  construct_timestamp y (d ++ "."%char :: m ++ rest) (hh ++ ":"%char :: nn)
  = build_datetime y (int_of m) (int_of d) (int_of hh) (int_of nn).
Proof.
  intros Hy Hd Hd2 Hm Hm2 Hrest Hhh Hnn.
  unfold construct_timestamp, date_str.
  rewrite date_match_ok by assumption. cbn [group nth_error Nat.sub bind].
  pose proof (year_text Hy) as Hyt. unfold year_text_ok in Hyt.
  apply andb_true_iff in Hyt as [Hyt Hyi].
  apply andb_true_iff in Hyt as [Hyl Hyd].
  apply Nat.eqb_eq in Hyl. apply N.eqb_eq in Hyi.
  rewrite <- !app_assoc. cbn [lit list_ascii_of_string app].
  rewrite arrow_get_iso; auto.
  - rewrite Hyi, !int_of_zfill; auto.
  - split; [apply zfill_length; auto | apply zfill_run; auto].
  - split; [apply zfill_length; auto | apply zfill_run; auto].
Qed.

Lemma build_datetime_valid (y mo d h mi : N) :
  (1 <= y <= 9999)%N -> (1 <= mo <= 12)%N ->
  (1 <= d <= days_in_month y mo)%N -> (h <= 23)%N -> (mi <= 59)%N ->
  build_datetime y mo d h mi = Ok (mkArrow y mo d h mi).
Proof.
  intros Hy Hmo Hd Hh Hmi. unfold build_datetime.
  replace (h =? 24)%N with false by (symmetry; apply N.eqb_neq; lia).
  unfold datetime.
  repeat match goal with
         | |- context [(?a <=? ?b)%N] =>
             replace (a <=? b)%N with true by (symmetry; apply N.leb_le; lia)
         end.
  reflexivity.
Qed.

Lemma date_match_plain (d m : pystr) :
  run_of is_digit d -> run_of is_digit m ->
  re_match REGEXPR_Date (d ++ "."%char :: m) = Some [d; m].
Proof.
  intros Hd Hm. rewrite <- (app_nil_r m) at 1.
  apply date_match_ok; auto. exact I.
Qed.

Lemma two_digits_run s : two_digits s -> run_of is_digit s.
Proof.
  intros [Hl Hd]. split; [|exact Hd]. destruct s; [discriminate|congruence].
Qed.

Lemma two_digits_le s : two_digits s -> length s <= 2.
Proof. intros [Hl _]. lia. Qed.

Lemma construct_timestamp_valid (y : N) (dd mm hh nn : pystr) :
  (1000 <= y <= 9999)%N -> date_text y dd mm -> time_text hh nn ->
  construct_timestamp y (dd ++ "."%char :: mm) (hh ++ ":"%char :: nn)
  = Ok (mkArrow y (int_of mm) (int_of dd) (int_of hh) (int_of nn)).
Proof.
  intros Hy (Hdd & Hmm & Hmo & Hd) (Hhh & Hnn & Hh & Hn).
  rewrite <- (app_nil_r mm) at 1.
  rewrite construct_timestamp_digits;
    auto using two_digits_run, two_digits_le.
  - apply build_datetime_valid; auto; lia.
  - exact I.
Qed.

(** ** Texts the two patterns refuse *)

Lemma date_match_begins (s : pystr) (caps : list pystr) :
  re_match REGEXPR_Date s = Some caps -> begins_with_date s.
Proof.
  unfold re_match, REGEXPR_Date. cbn [m_items m_atoms m_atom plus].
  intros H.
  apply rep_inv in H as (d & rest1 & -> & Hd & Hdl & H).
  destruct rest1 as [|c s2]; [discriminate|].
  destruct (Ascii.eqb "." c) eqn:Hc; [|discriminate].
  apply Ascii.eqb_eq in Hc. subst c.
  apply rep_inv in H as (m & rest & -> & Hm & Hml & _).
  exists d, m, rest. auto using run_of_length.
Qed.

Lemma begins_with_date_match (s : pystr) :
  begins_with_date s -> exists caps, re_match REGEXPR_Date s = Some caps.
Proof.
  intros (d & m & rest & -> & Hd & Hm).
  destruct (span_run is_digit (m ++ rest)) as (run & rest' & E & Hrun & Hrest).
  assert (Hne : run <> []).
  { intros ->. cbn [app] in E. rewrite <- E in Hrest.
    destruct Hm as [Hm0 Hm]. destruct m as [|c m]; [congruence|].
    cbn in Hrest, Hm. rewrite Hrest in Hm. discriminate. }
  rewrite E. exists [d; run]. apply date_match_ok; auto. split; auto.
Qed.

Lemma date_no_match_iff (s : pystr) :
  re_match REGEXPR_Date s = None <-> ~ begins_with_date s.
Proof.
  split.
  - intros Hnone Hb. destruct (begins_with_date_match Hb) as [caps E].
    congruence.
  - intros Hb. destruct (re_match REGEXPR_Date s) as [caps|] eqn:E;
      [|reflexivity].
    exfalso. exact (Hb (date_match_begins _ E)).
Qed.

Lemma time_range_match_begins (s : pystr) (caps : list pystr) :
  re_match REGEXPR_TIME_RANGE s = Some caps -> begins_with_time_range s.
Proof.
  unfold re_match, REGEXPR_TIME_RANGE. cbn [m_items]. intros H.
  apply time_group_inv in H as (h1 & m1 & rest1 & -> & Hh1 & Hm1 & H).
  cbn [m_atom star plus] in H.
  apply rep_inv in H as (ws1 & rest2 & -> & Hws1 & _ & H).
  apply rep_inv in H as (w & rest3 & -> & Hw & Hwl & H).
  apply rep_inv in H as (ws2 & rest4 & -> & Hws2 & _ & H).
  apply time_group_inv in H as (h2 & m2 & rest & -> & Hh2 & Hm2 & _).
  exists h1, m1, ws1, w, ws2, h2, m2, rest.
  repeat split; auto; try apply Hh1; try apply Hm1; try apply Hh2;
    try apply Hm2.
  destruct w; [cbn in Hwl; lia | discriminate].
Qed.

(** A repetition succeeds as soon as the rest of the pattern succeeds
    after one of the runs it may take. *)
Lemma rep_complete (R : Type) (cls : ascii -> bool) (k : pystr -> option R)
      (rest : pystr) :
  k rest <> None ->
  forall run lo,
    forallb cls run = true -> lo <= length run ->
    rep cls lo None (run ++ rest) k <> None.
Proof.
  intros Hk. induction run as [|c run IH]; intros lo Hrun Hlo.
  - cbn [length] in Hlo. assert (lo = 0) by lia. subst lo. cbn [app].
    destruct rest as [|c s']; cbn [rep option_map]; [exact Hk|].
    destruct (cls c); [|exact Hk].
    destruct (rep _ _ _ _ _); [discriminate | exact Hk].
  - cbn [forallb] in Hrun. apply andb_true_iff in Hrun as [Hc Hrun].
    cbn [app rep option_map]. rewrite Hc.
    assert (Hp : pred lo <= length run) by (cbn [length] in Hlo; lia).
    specialize (IH (pred lo) Hrun Hp).
    destruct (rep _ _ _ _ _); [discriminate | contradiction].
Qed.

Lemma run_of_pos (cls : ascii -> bool) (s : pystr) :
  run_of cls s -> 1 <= length s.
Proof.
  intros [Hne _]. destruct s; [congruence | cbn; lia].
Qed.

Lemma begins_with_time_range_match (s : pystr) :
  begins_with_time_range s -> re_match REGEXPR_TIME_RANGE s <> None.
Proof.
  intros (h1 & m1 & ws1 & w & ws2 & h2 & m2 & rest & ->
          & Hh1 & Hm1 & Hws1 & Hw & Hws2 & Hh2 & Hm2).
  unfold re_match, REGEXPR_TIME_RANGE.
  cbn [m_items m_atoms m_atom plus star].
  apply rep_complete; [|apply Hh1 | apply (run_of_pos Hh1)].
  rewrite Ascii.eqb_refl.
  apply rep_complete; [|apply Hm1 | apply (run_of_pos Hm1)].
  apply rep_complete; [|exact Hws1 | apply Nat.le_0_l].
  apply rep_complete; [|apply Hw | apply (run_of_pos Hw)].
  apply rep_complete; [|exact Hws2 | apply Nat.le_0_l].
  apply rep_complete; [|apply Hh2 | apply (run_of_pos Hh2)].
  rewrite Ascii.eqb_refl.
  apply rep_complete; [|apply Hm2 | apply (run_of_pos Hm2)].
  discriminate.
Qed.

Lemma time_range_no_match_iff (s : pystr) :
  re_match REGEXPR_TIME_RANGE s = None <-> ~ begins_with_time_range s.
Proof.
  split.
  - intros Hnone Hb. exact (begins_with_time_range_match Hb Hnone).
  - intros Hb. destruct (re_match REGEXPR_TIME_RANGE s) as [caps|] eqn:E;
      [|reflexivity].
    exfalso. exact (Hb (time_range_match_begins _ E)).
Qed.

(** ** The zone of a reconstructed timestamp *)






(* ================================================================= *)
(** * The claims *)




(** C10.  For a date text whose day and month are written with any number
    of digits, the text handed to the parser has the day and the month
    filled with zeros on the left to two digits; so, for every time text
    and every current year, reconstruction gives the same result for the
    date as written and for the date with day and month so filled; and
    when the current year has four digits, day and month have at most two
    digits and name a day of that year and the time text [HH:MM] names a
    minute of the day, both return the timestamp of that day and minute. *)
Theorem construct_timestamp_zero_pads (y : N) (d m : pystr) :
  run_of is_digit d -> run_of is_digit m ->
  let dd := repeat "0"%char (2 - length d) ++ d in
  let mm := repeat "0"%char (2 - length m) ++ m in
  date_str y (d ++ "."%char :: m)
  = Ok (str_of_N y ++ lit "-" ++ mm ++ lit "-" ++ dd)
  /\ (forall time : pystr,
      construct_timestamp y (d ++ "."%char :: m) time
      = construct_timestamp y (dd ++ "."%char :: mm) time)
  /\ (forall hh nn : pystr,
      (1000 <= y <= 9999)%N -> length d <= 2 -> length m <= 2 ->
      (1 <= int_of m <= 12)%N ->
      (1 <= int_of d <= days_in_month y (int_of m))%N ->
      time_text hh nn ->
      construct_timestamp y (d ++ "."%char :: m) (hh ++ ":"%char :: nn)
      = Ok (mkArrow y (int_of m) (int_of d) (int_of hh) (int_of nn))
      /\ construct_timestamp y (dd ++ "."%char :: mm) (hh ++ ":"%char :: nn)
         = Ok (mkArrow y (int_of m) (int_of d) (int_of hh) (int_of nn))).
Proof.
  intros Hd Hm dd mm. subst dd mm.
  rewrite <- (zfill_digits 2 Hd), <- (zfill_digits 2 Hm).
  assert (Hsame : forall time : pystr,
             construct_timestamp y (d ++ "."%char :: m) time
             = construct_timestamp y (zfill 2 d ++ "."%char :: zfill 2 m) time).
  { intros time. unfold construct_timestamp, date_str.
    rewrite !date_match_plain by auto using zfill_run.
    cbn [group nth_error Nat.sub bind].
    rewrite !zfill_idem by assumption. reflexivity. }
  split; [|split; [exact Hsame|]].
  - unfold date_str. rewrite date_match_plain by assumption. reflexivity.
  - intros hh nn Hy Hd2 Hm2 Hmo Hday (Hhh & Hnn & Hh & Hn).
    rewrite <- Hsame.
    assert (E : construct_timestamp y (d ++ "."%char :: m)
                  (hh ++ ":"%char :: nn)
                = Ok (mkArrow y (int_of m) (int_of d) (int_of hh) (int_of nn))).
    { rewrite <- (app_nil_r m) at 1.
      rewrite construct_timestamp_digits; auto; [|exact I].
      apply build_datetime_valid; auto; lia. }
    split; exact E.
Qed.

Lemma construct_timestamp_zero_pads_witness :
  date_str 2024 (lit "5.3") = Ok (lit "2024-03-05")
  /\ construct_timestamp 2024 (lit "5.3") (lit "09:30")
     = Ok (mkArrow 2024 3 5 9 30)
  /\ construct_timestamp 2024 (lit "05.03") (lit "09:30")
     = Ok (mkArrow 2024 3 5 9 30).
Proof.
  assert (H5 : run_of is_digit (lit "5")) by (split; [discriminate|reflexivity]).
  assert (H3 : run_of is_digit (lit "3")) by (split; [discriminate|reflexivity]).
  assert (Ht : time_text (lit "09") (lit "30")).
  { repeat split; try reflexivity; discriminate. }
  split.
  - exact (proj1 (@construct_timestamp_zero_pads 2024 (lit "5") (lit "3")
                    H5 H3)).
  - apply (proj2 (proj2 (@construct_timestamp_zero_pads 2024 (lit "5")
                           (lit "3") H5 H3)) (lit "09") (lit "30"));
      try exact Ht; try (split; discriminate); cbn; lia.
Defined.

(** C2, as stated, fails: a separator that is not a word, such as a dash
    between spaces, is a non-digit token the pattern does not accept. *)
Lemma time_range_dash_counterexample :
  forallb (fun c => negb (is_digit c)) (lit " - ") = true
  /\ re_match REGEXPR_TIME_RANGE (lit "09:00" ++ lit " - " ++ lit "10:00")
     = None
  /\ group (re_match REGEXPR_TIME_RANGE
              (lit "09:00" ++ lit " - " ++ lit "10:00")) 1
     = Raise TypeError.
Proof. repeat split. Qed.

(** C2, amended.  For every time-range text made of a time [digits:digits],
    optional white space, a word of word characters other than digits,
    white space, and a second time [digits:digits], the match succeeds,
    its first group is the first time and its second group the second. *)
Theorem time_range_word_separator (h1 m1 ws1 w ws2 h2 m2 : pystr) :
  run_of is_digit h1 -> run_of is_digit m1 ->
  forallb is_space ws1 = true ->
  run_of (fun c => is_word c && negb (is_digit c)) w ->
  run_of is_space ws2 ->
  run_of is_digit h2 -> run_of is_digit m2 ->
  let m := re_match REGEXPR_TIME_RANGE
             (h1 ++ ":"%char :: m1 ++ ws1 ++ w ++ ws2 ++ h2 ++ ":"%char :: m2) in
  group m 1 = Ok (h1 ++ ":"%char :: m1)
  /\ group m 2 = Ok (h2 ++ ":"%char :: m2).
Proof.
  intros Hh1 Hm1 Hws1 Hw Hws2 Hh2 Hm2 m. subst m.
  rewrite <- (app_nil_r m2) at 1 2.
  rewrite time_range_match_ok by (auto; exact I).
  split; reflexivity.
Qed.

Lemma time_range_word_separator_witness :
  group (re_match REGEXPR_TIME_RANGE (lit "09:00 to 10:00")) 1
  = Ok (lit "09:00")
  /\ group (re_match REGEXPR_TIME_RANGE (lit "09:00 to 10:00")) 2
     = Ok (lit "10:00").
Proof.
  apply (@time_range_word_separator (lit "09") (lit "00") (lit " ") (lit "to")
           (lit " ") (lit "10") (lit "00"));
    try (split; [discriminate | reflexivity]); reflexivity.
Defined.

(** ** Failures *)

Ltac raise_now := eexists; reflexivity.

(** One statement of a function body: either it raises, and so does the
    body, or it yields a value and the body goes on. *)
Ltac step_bind :=
  match goal with
  | |- raised (bind ?m _) =>
      let E := fresh "E" in destruct m eqn:E; cbn [bind]; [| raise_now]
  end.

Lemma events_for_bad_date (y : N) (descr room t1 t2 : pystr)
      (dates : list pystr) (d : pystr) :
  In d dates -> re_match REGEXPR_Date d = None ->
  raised (events_for y descr room t1 t2 dates).
Proof.
  intros Hin Hbad. induction dates as [|date dates IH]; [destruct Hin|].
  destruct Hin as [->|Hin]; cbn [events_for].
  - unfold construct_timestamp, date_str. rewrite Hbad. raise_now.
  - do 2 step_bind. destruct (IH Hin) as [e ->]. raise_now.
Qed.

Lemma date_strings_in (cells : list Node) (cell : Node) (d : pystr) :
  In cell cells -> node_string cell = Some d -> In d (date_strings cells).
Proof.
  intros Hin Hd. induction cells as [|c cells IH]; [destruct Hin|].
  destruct Hin as [->|Hin]; cbn [date_strings].
  - rewrite Hd. left. reflexivity.
  - destruct (node_string c); [right|]; auto.
Qed.

(** C6, as stated, fails: a date cell that reads ["18.03.2025"], or
    ["18.03abc"], is no date [DD.MM], yet the group is processed without
    any failure and yields a record on 18 March of the current year: the
    rest of the text is passed over in silence. *)
Lemma date_with_tail_counterexample :
  date_only (lit "18.03.2025") = false
  /\ process_event_rows 2024
       [detail_table "09:00 to 10:00"; table_row [td [text "18.03.2025"]]] 0
     = Ok [ mkCalEvent (lit "Intro to Systems (H00A0a)") (lit "200B")
              (mkArrow 2024 3 18 9 0) (mkArrow 2024 3 18 10 0) ]
  /\ date_only (lit "18.03abc") = false
  /\ process_event_rows 2024
       [detail_table "09:00 to 10:00"; table_row [td [text "18.03abc"]]] 0
     = Ok [ mkCalEvent (lit "Intro to Systems (H00A0a)") (lit "200B")
              (mkArrow 2024 3 18 9 0) (mkArrow 2024 3 18 10 0) ]
  /\ date_only (lit "18.03") = true.
Proof. repeat split. Qed.

(** C6, amended.  When the pattern match on the trimmed time-range text of
    the event-detail row yields no result, and when the pattern match on
    the text of a date cell yields no result, processing the event group
    raises: it returns no list of records at all.  The match on a date
    text yields no result exactly when the text does not begin with
    digits, a dot and digits; the match on a time-range text yields no
    result exactly when the text does not begin with a time, optional
    white space, a word, optional white space and a second time.  What
    follows such a beginning is not looked at. *)
Theorem pattern_mismatch_is_fatal (y : N) (table_lst : list Node) (pos : nat) :
  (forall (detail : Node) (row : list Node) (c1 : Node) (s : pystr),
      index table_lst pos = Ok detail -> row_cells detail = Ok row ->
      index row 1 = Ok c1 -> node_string c1 = Some s ->
      re_match REGEXPR_TIME_RANGE (strip s) = None ->
      raised (process_event_rows y table_lst pos))
  /\ (forall (dates : Node) (row : list Node) (cell : Node) (d : pystr),
      index table_lst (pos + 1) = Ok dates -> row_cells dates = Ok row ->
      In cell row -> node_string cell = Some d ->
      re_match REGEXPR_Date d = None ->
      raised (process_event_rows y table_lst pos))
  /\ (forall d : pystr,
      re_match REGEXPR_Date d = None <-> ~ begins_with_date d)
  /\ (forall s : pystr,
      re_match REGEXPR_TIME_RANGE s = None <-> ~ begins_with_time_range s).
Proof.
  split; [|split; [|split; [apply date_no_match_iff
                           | apply time_range_no_match_iff]]].
  - intros detail row c1 s Hdetail Hrow Hc1 Hs Hbad.
    unfold process_event_rows.
    rewrite Hdetail. cbn [bind]. rewrite Hrow. cbn [bind].
    do 2 step_bind. rewrite Hc1. cbn [bind].
    rewrite Hs. cbn [sanitize_string deref bind].
    do 8 step_bind. rewrite Hbad. raise_now.
  - intros dates row cell d Hdates Hrow Hcell Hd Hbad.
    unfold process_event_rows.
    do 2 step_bind. rewrite Hdates. cbn [bind]. rewrite Hrow. cbn [bind].
    do 12 step_bind.
    apply events_for_bad_date with (d := d); auto.
    apply date_strings_in with (cell := cell); auto.
Qed.

Lemma pattern_mismatch_is_fatal_witness :
  raised (process_event_rows 2024 (scenario "invalid") 2)
  /\ raised (process_event_rows 2024
               [detail_table "09:00 to 10:00"; table_row [td [text "1803"]]] 0)
  /\ ~ begins_with_date (lit "1803")
  /\ re_match REGEXPR_TIME_RANGE (lit "invalid") = None.
Proof.
  assert (Hinvalid : ~ begins_with_time_range (lit "invalid")).
  { intros (h1 & m1 & ws1 & w & ws2 & h2 & m2 & rest & E & [Hne Hh1] & _).
    destruct h1 as [|c h1]; [congruence|].
    injection E as <- _. discriminate Hh1. }
  split; [|split; [|split]].
  - apply (proj1 (pattern_mismatch_is_fatal 2024 (scenario "invalid") 2)
             (detail_table "invalid")
             (node_contents (Tag (lit "tr")
                [td []; td [text "invalid"]; td [text "200B"];
                 td [Tag (lit "a") [text "H00A0a"]];
                 td [text "Intro to Systems"]]))
             (td [text "invalid"]) (lit "invalid")); reflexivity.
  - apply (proj1 (proj2 (pattern_mismatch_is_fatal 2024
                    [detail_table "09:00 to 10:00";
                     table_row [td [text "1803"]]] 0))
             (table_row [td [text "1803"]]) [td [text "1803"]]
             (td [text "1803"]) (lit "1803")); try reflexivity.
    left. reflexivity.
  - apply (proj1 (proj1 (proj2 (proj2 (pattern_mismatch_is_fatal 2024 [] 0)))
                    (lit "1803"))).
    reflexivity.
  - exact (proj2 (proj2 (proj2 (proj2 (pattern_mismatch_is_fatal 2024 [] 0)))
                    (lit "invalid")) Hinvalid).
Defined.

Lemma find_week_from_no_marker (l : list Node) :
  (forall tb, In tb l -> is_week_row tb <> Ok PyTrue) ->
  forall i j, find_week_from l i <> Ok (Some j).
Proof.
  induction l as [|tb l IH]; intros H i j; cbn [find_week_from].
  - discriminate.
  - destruct (is_week_row tb) as [w|e] eqn:E; cbn [bind]; [|discriminate].
    destruct w; cbn [truthy].
    + exfalso. apply (H tb); [left; reflexivity | exact E].
    + apply IH. intros tb' Hin. apply H. right. exact Hin.
    + apply IH. intros tb' Hin. apply H. right. exact Hin.
Qed.

Lemma find_week_from_all_classified (l : list Node) :
  (forall tb, In tb l -> is_week_row tb <> Ok PyTrue) ->
  (forall tb, In tb l -> exists f, is_week_row tb = Ok f) ->
  forall i, find_week_from l i = Ok None.
Proof.
  induction l as [|tb l IH]; intros H Hok i; cbn [find_week_from]; auto.
  destruct (Hok tb) as [f Hf]; [left; reflexivity|].
  rewrite Hf. cbn [bind].
  destruct f; cbn [truthy].
  - exfalso. apply (H tb); [left; reflexivity | exact Hf].
  - apply IH; intros tb' Hin; [apply H | apply Hok]; right; exact Hin.
  - apply IH; intros tb' Hin; [apply H | apply Hok]; right; exact Hin.
Qed.

(** C7.  When no element of the table sequence is classified as a week
    marker, the search yields no index, and [main] raises before its loop:
    with every element classified it is the [TypeError] of adding 2 to no
    value.  No start position is made up. *)
Theorem no_week_marker_is_fatal (y : N) (tables_lst : list Node) :
  (forall tb, In tb tables_lst -> is_week_row tb <> Ok PyTrue) ->
  (forall i, find_week_row tables_lst 0 <> Ok (Some i))
  /\ (exists e, main_event_list y tables_lst = Some (Raise e))
  /\ ((forall tb, In tb tables_lst -> exists f, is_week_row tb = Ok f) ->
      find_week_row tables_lst 0 = Ok None
      /\ main_event_list y tables_lst = Some (Raise TypeError)).
Proof.
  intros H.
  assert (Hno : forall i, find_week_row tables_lst 0 <> Ok (Some i)).
  { intro i. unfold find_week_row. cbn [skipn].
    apply find_week_from_no_marker, H. }
  split; [exact Hno|]. split.
  - unfold main_event_list.
    destruct (find_week_row tables_lst 0) as [[i|]|e] eqn:E.
    + exfalso. exact (Hno i eq_refl).
    + eexists. reflexivity.
    + eexists. reflexivity.
  - intros Hok.
    assert (Hnone : find_week_row tables_lst 0 = Ok None).
    { unfold find_week_row. cbn [skipn].
      apply find_week_from_all_classified; auto. }
    split; [exact Hnone|].
    unfold main_event_list. rewrite Hnone. reflexivity.
Qed.

Lemma no_week_marker_is_fatal_witness :
  find_week_row [day_table; dates_table; trailer_table] 0 = Ok None
  /\ main_event_list 2024 [day_table; dates_table; trailer_table]
     = Some (Raise TypeError).
Proof.
  assert (H : forall tb, In tb [day_table; dates_table; trailer_table] ->
                         is_week_row tb <> Ok PyTrue).
  { intros tb [<-|[<-|[<-|[]]]]; discriminate. }
  apply (proj2 (proj2 (@no_week_marker_is_fatal 2024 _ H))).
  intros tb [<-|[<-|[<-|[]]]]; eexists; reflexivity.
Defined.

(** C1, as stated, fails: with the time range written ["09:00 - 10:00"]
    the scan of the four tables raises and produces no record, with or
    without a trailer table after them. *)
Lemma scenario_dash_counterexample :
  main_event_list 2024 (scenario "09:00 - 10:00") = Some (Raise TypeError)
  /\ main_event_list 2024 (scenario "09:00 - 10:00" ++ [trailer_table])
     = Some (Raise TypeError)
  /\ main_event_list 2024 (scenario "09:00 - 10:00")
     <> Some (Ok scenario_events).
Proof. repeat split. discriminate. Qed.

(** C1, amended.  With the time range written with a word between the two
    times, ["09:00 to 10:00"], and the current year 2024, the scan of the
    week marker, the day marker, the event-detail row and the dates row
    ["18.03"], ["25.03"] produces exactly the two records named
    ["Intro to Systems (H00A0a)"] at ["200B"], from 09:00 to 10:00 on
    2024-03-18 and on 2024-03-25, with or without a trailer table. *)
Theorem scenario_two_records :
  main_event_list 2024 (scenario "09:00 to 10:00") = Some (Ok scenario_events)
  /\ main_event_list 2024 (scenario "09:00 to 10:00" ++ [trailer_table])
     = Some (Ok scenario_events).
Proof. split; reflexivity. Qed.

(** ** The loop of [main] and the scan of the specification *)

Section Scan.
Variable cur_year : N.
Variable tables : list Node.
Variable stop_ind : nat.
Hypothesis stop_in_range : stop_ind <= length tables.

Lemma scan_loop_sound (fuel : nat) :
  forall cur acc r,
    scan_loop fuel cur_year tables stop_ind cur acc = Some r ->
    scan_spec cur_year tables stop_ind cur acc r.
Proof.
  induction fuel as [|fuel IH]; intros cur acc r H; cbn [scan_loop] in H;
    destruct (cur <? stop_ind) eqn:Hlt;
    try (apply Nat.ltb_ge in Hlt; injection H as <-; now apply scan_stop);
    try discriminate.
  apply Nat.ltb_lt in Hlt. unfold index in H.
  destruct (nth_error tables cur) as [tb|] eqn:Htb.
  - destruct (is_week_row tb) as [w|e] eqn:Hw.
    + destruct w; cbn [truthy] in H.
      * destruct (process_event_rows cur_year tables (cur + 2))
          as [evs|e] eqn:Hp.
        -- eapply scan_week; eauto.
        -- injection H as <-. eapply scan_week_fails; eauto.
      * destruct (process_event_rows cur_year tables cur) as [evs|e] eqn:Hp.
        -- eapply scan_pair; eauto. discriminate.
        -- injection H as <-. eapply scan_pair_fails; eauto. discriminate.
      * destruct (process_event_rows cur_year tables cur) as [evs|e] eqn:Hp.
        -- eapply scan_pair; eauto. discriminate.
        -- injection H as <-. eapply scan_pair_fails; eauto. discriminate.
    + injection H as <-. eapply scan_classify_fails; eauto.
  - apply nth_error_None in Htb. lia.
Qed.

(** The loop ends within [stop_ind - cur] iterations. *)
Lemma scan_loop_total (fuel : nat) :
  forall cur acc,
    stop_ind - cur <= fuel ->
    exists r, scan_loop fuel cur_year tables stop_ind cur acc = Some r.
Proof.
  induction fuel as [|fuel IH]; intros cur acc Hfuel; cbn [scan_loop];
    destruct (cur <? stop_ind) eqn:Hlt; eauto.
  - apply Nat.ltb_lt in Hlt. lia.
  - apply Nat.ltb_lt in Hlt.
    destruct (index tables cur) as [tb|e]; eauto.
    destruct (is_week_row tb) as [w|e]; eauto.
    destruct (process_event_rows cur_year tables
                (if truthy w then cur + 2 else cur)) as [evs|e]; eauto.
    apply IH. destruct (truthy w); lia.
Qed.

Lemma scan_spec_functional cur acc r1 r2 :
  scan_spec cur_year tables stop_ind cur acc r1 ->
  scan_spec cur_year tables stop_ind cur acc r2 -> r1 = r2.
Proof.
  intros Hfirst. revert r2.
  induction Hfirst; intros r2 Hsecond; inversion Hsecond; subst;
    try lia;
    repeat match goal with
           | A : nth_error tables ?c = Some ?x,
             B : nth_error tables ?c = Some ?y |- _ =>
               rewrite A in B; injection B as <-
           | A : is_week_row ?t = _, B : is_week_row ?t = _ |- _ =>
               rewrite A in B; first [discriminate | injection B as <-]
           | A : process_event_rows _ _ ?p = _,
             B : process_event_rows _ _ ?p = _ |- _ =>
               rewrite A in B; first [discriminate | injection B as <-]
           end;
    try congruence; auto.
Qed.
End Scan.

(** C4.  The scan of [main] returns, and what it returns is the outcome of
    the cursor algorithm: the cursor starts two places after the first
    week marker; while it is below the stop index, which is the index of
    the last element, a week marker at the cursor moves the pair of rows
    two places on, the pair is processed and the cursor is put two places
    after the start of the pair.  The algorithm has one outcome only. *)
Theorem main_scan_follows_cursor (cur_year : N) (tables_lst : list Node) :
  exists r,
    main_event_list cur_year tables_lst = Some r
    /\ scan_outcome cur_year tables_lst r
    /\ forall r', scan_outcome cur_year tables_lst r' -> r' = r.
Proof.
  unfold main_event_list, scan_outcome.
  destruct (find_week_row tables_lst 0) as [[i|]|e]; cbn [add_int].
  - assert (Hle : length tables_lst - 1 <= length tables_lst) by lia.
    assert (Hfuel : length tables_lst - 1 - (i + 2) <= length tables_lst)
      by lia.
    destruct (scan_loop_total cur_year tables_lst Hle (i + 2) [] Hfuel)
      as [r Hr].
    exists r. split; [exact Hr|].
    assert (Hs : scan_spec cur_year tables_lst (length tables_lst - 1)
                   (i + 2) [] r)
      by exact (scan_loop_sound cur_year tables_lst Hle _ _ _ Hr).
    split; [exact Hs|].
    intros r' Hr'. exact (scan_spec_functional Hle Hr' Hs).
  - exists (Raise TypeError). auto.
  - exists (Raise e). auto.
Qed.

Lemma main_scan_follows_cursor_witness :
  exists r,
    main_event_list 2024 (scenario "09:00 to 10:00" ++ [trailer_table]) = Some r
    /\ scan_outcome 2024 (scenario "09:00 to 10:00" ++ [trailer_table]) r
    /\ forall r',
        scan_outcome 2024 (scenario "09:00 to 10:00" ++ [trailer_table]) r'
        -> r' = r.
Proof.
  exact (main_scan_follows_cursor 2024
           (scenario "09:00 to 10:00" ++ [trailer_table])).
Defined.

(** ** The week-marker classifier *)

Lemma str_eqb_eq (a b : pystr) : str_eqb a b = true <-> a = b.
Proof.
  revert b. induction a as [|x a IH]; intros [|y b]; cbn [str_eqb];
    try (split; [discriminate | discriminate]); try tauto.
  rewrite andb_true_iff, Ascii.eqb_eq, IH.
  split; [intros [-> ->]; reflexivity | intros [= -> ->]; auto].
Qed.

Lemma marker_cell_true (cell : Node) :
  match cell with
  | NavigableString _ => Ok PyNone
  | Tag _ _ =>
      match find (lit "font") cell with
      | None => Ok PyNone
      | Some font =>
          txt <- sanitize_string (node_string font) ;;
          if str_eqb txt (lit "Week") then Ok PyTrue else Ok PyNone
      end
  end = Ok PyTrue ->
  exists cnm ccs font txt,
    cell = Tag cnm ccs /\ find (lit "font") (Tag cnm ccs) = Some font
    /\ node_string font = Some txt /\ strip txt = lit "Week".
Proof.
  destruct cell as [cnm ccs|s]; [|discriminate].
  destruct (find (lit "font") (Tag cnm ccs)) as [font|] eqn:Hfont;
    [|discriminate].
  unfold sanitize_string.
  destruct (node_string font) as [txt|] eqn:Htxt; cbn [deref bind];
    [|discriminate].
  destruct (str_eqb (strip txt) (lit "Week")) eqn:Hweek; [|discriminate].
  intros _. exists cnm, ccs, font, txt. apply str_eqb_eq in Hweek. auto.
Qed.

Lemma is_week_row_true (el : Node) :
  is_week_row el = Ok PyTrue -> week_marker el.
Proof.
  unfold is_week_row, week_marker.
  destruct el as [nm cs|s]; cbn [node_name deref bind]; [|discriminate].
  destruct (str_eqb (lower nm) (lit "table")) eqn:Hnm; cbn [negb];
    [|discriminate].
  apply str_eqb_eq in Hnm. cbn [getattr_tag bind].
  destruct (find (lit "tr") (Tag nm cs)) as [row|] eqn:Hrow; [|discriminate].
  unfold index.
  destruct (node_contents row) as [|c0 rest] eqn:Hcs; cbn [nth_error bind];
    [discriminate|].
  destruct (opt_str_eqb (node_string c0) ["010"%char]) eqn:Hnl.
  - destruct rest as [|c rest]; cbn [nth_error bind]; [discriminate|].
    intros H.
    destruct (marker_cell_true _ H) as (cnm & ccs & font & txt & -> & Hf).
    exists nm, cs, row, cnm, ccs, font, txt.
    destruct Hf as (? & ? & ?). repeat split; auto.
    unfold marker_cell. rewrite Hcs, Hnl. reflexivity.
  - cbn [bind]. intros H.
    destruct (marker_cell_true _ H) as (cnm & ccs & font & txt & -> & Hf).
    exists nm, cs, row, cnm, ccs, font, txt.
    destruct Hf as (? & ? & ?). repeat split; auto.
    unfold marker_cell. rewrite Hcs, Hnl. reflexivity.
Qed.

Lemma week_marker_is_week_row (el : Node) :
  week_marker el -> is_week_row el = Ok PyTrue.
Proof.
  intros (nm & cs & row & cnm & ccs & font & txt
          & -> & Hnm & Hrow & Hcell & Hfont & Htxt & Hweek).
  unfold is_week_row. cbn [node_name deref bind].
  rewrite Hnm, (proj2 (str_eqb_eq _ _) eq_refl). cbn [negb].
  cbn [getattr_tag bind]. rewrite Hrow.
  unfold marker_cell in Hcell. unfold index.
  destruct (node_contents row) as [|c0 rest]; [discriminate|].
  cbn [nth_error bind].
  destruct (opt_str_eqb (node_string c0) ["010"%char]).
  - destruct rest as [|c rest]; [discriminate|]. injection Hcell as ->.
    cbn [bind]. rewrite Hfont.
    unfold sanitize_string. rewrite Htxt. cbn [deref bind].
    rewrite Hweek. reflexivity.
  - injection Hcell as ->. cbn [bind]. rewrite Hfont.
    unfold sanitize_string. rewrite Htxt. cbn [deref bind].
    rewrite Hweek. reflexivity.
Qed.

(** C5, as stated, fails: in a row that starts with one space, the first
    cell that is not white space holds exactly [Week], yet the classifier
    does not answer true and the search finds no week row; nor does the
    classifier answer true for a first cell that holds exactly [Week] with
    no [font] element around the text. *)
Lemma week_marker_space_counterexample :
  week_marker_as_claimed spaced_week_table = true
  /\ is_week_row spaced_week_table = Ok PyNone
  /\ find_week_row [spaced_week_table] 0 = Ok None
  /\ week_marker_as_claimed plain_week_table = true
  /\ is_week_row plain_week_table = Ok PyNone
  /\ find_week_row [plain_week_table] 0 = Ok None.
Proof. repeat split. Qed.

(** C5, amended.  The classifier answers true exactly for a tag named
    [table] (in any case) with a row whose first child -- or second child,
    when the string of the first is exactly one newline -- is a tag with a
    [font] descendant whose string, trimmed, is the case-sensitive text
    [Week].  When the chain of conditions falls through and the classifier
    answers nothing, the element counts as no week row: the search for a
    week row passes over it and the loop of [main] takes the pair of rows
    at the cursor. *)
Theorem week_marker_classifier (el : Node) :
  (is_week_row el = Ok PyTrue <-> week_marker el)
  /\ (is_week_row el = Ok PyNone ->
      (forall l i, find_week_from (el :: l) i = find_week_from l (S i))
      /\ forall fuel y tables stop_ind cur acc,
          nth_error tables cur = Some el -> cur < stop_ind ->
          scan_loop (S fuel) y tables stop_ind cur acc
          = match process_event_rows y tables cur with
            | Raise e => Some (Raise e)
            | Ok evs =>
                scan_loop fuel y tables stop_ind (cur + 2) (acc ++ evs)
            end).
Proof.
  split; [split; [apply is_week_row_true | apply week_marker_is_week_row]|].
  intros Hnone. split.
  - intros l i. cbn [find_week_from]. rewrite Hnone. reflexivity.
  - intros fuel y tables stop_ind cur acc Hel Hlt.
    cbn [scan_loop]. apply Nat.ltb_lt in Hlt. rewrite Hlt.
    unfold index. rewrite Hel, Hnone. reflexivity.
Qed.

Lemma week_marker_classifier_witness :
  week_marker week_table /\ is_week_row week_table = Ok PyTrue
  /\ forall l i,
      find_week_from (spaced_week_table :: l) i = find_week_from l (S i).
Proof.
  assert (Hw : week_marker week_table).
  { exists (lit "table"), [Tag (lit "tr") [td [Tag (lit "font") [text "Week"]]]],
      (Tag (lit "tr") [td [Tag (lit "font") [text "Week"]]]),
      (lit "td"), [Tag (lit "font") [text "Week"]],
      (Tag (lit "font") [text "Week"]), (lit "Week").
    repeat split. }
  split; [exact Hw|]. split.
  - exact (proj2 (proj1 (week_marker_classifier week_table)) Hw).
  - exact (proj1 (proj2 (week_marker_classifier spaced_week_table)
                    eq_refl)).
Defined.

(** ** What every produced record satisfies *)

Lemma days_in_month_pos (y m : N) : (1 <= days_in_month y m)%N.
Proof.
  unfold days_in_month.
  repeat match goal with
         | |- context [match ?x with _ => _ end] => destruct x
         end; lia.
Qed.

Lemma datetime_ok_valid (y mo d h mi : N) (t : Arrow) :
  datetime y mo d h mi = Ok t -> valid_arrow t.
Proof.
  unfold datetime, valid_arrow.
  destruct (_ && _) eqn:H; [|discriminate]. intros [= <-]. cbn.
  repeat (apply andb_true_iff in H as [H ?]).
  repeat match goal with
         | A : (_ <=? _)%N = true |- _ => apply N.leb_le in A
         end.
  lia.
Qed.

Lemma next_day_valid (t t' : Arrow) :
  valid_arrow t -> next_day t = Ok t' -> valid_arrow t'.
Proof.
  unfold next_day, valid_arrow. intros (Hy & Hm & Hd & Hh & Hn).
  destruct (day t <? days_in_month (year t) (month t))%N eqn:Ed.
  - intros [= <-]. cbn. apply N.ltb_lt in Ed. lia.
  - destruct (month t <? 12)%N eqn:Em.
    + intros [= <-]. cbn. apply N.ltb_lt in Em.
      pose proof (days_in_month_pos (year t) (month t + 1)). lia.
    + destruct (year t <? 9999)%N eqn:Ey; [|discriminate].
      intros [= <-]. cbn. apply N.ltb_lt in Ey.
      pose proof (days_in_month_pos (year t + 1) 1). lia.
Qed.

Lemma build_datetime_ok_valid (y mo d h mi : N) (t : Arrow) :
  build_datetime y mo d h mi = Ok t -> valid_arrow t.
Proof.
  unfold build_datetime.
  destruct (h =? 24)%N; [|apply datetime_ok_valid].
  destruct (mi =? 0)%N; [|discriminate].
  destruct (datetime y mo d 0 0) as [t0|e] eqn:E; cbn [bind]; [|discriminate].
  apply next_day_valid. exact (datetime_ok_valid _ _ _ _ _ E).
Qed.

Lemma arrow_get_ok_valid (s : pystr) (t : Arrow) :
  arrow_get s = Ok t -> valid_arrow t.
Proof.
  unfold arrow_get.
  destruct (parse_multiformat iso_formats s)
    as [[|y [|mo [|d [|h [|mi [|]]]]]]|]; try discriminate.
  apply build_datetime_ok_valid.
Qed.

Lemma construct_timestamp_ok_valid (y : N) (date time : pystr) (t : Arrow) :
  construct_timestamp y date time = Ok t -> valid_arrow t.
Proof.
  unfold construct_timestamp.
  destruct (date_str y date); cbn [bind]; [|discriminate].
  apply arrow_get_ok_valid.
Qed.

Lemma date_strings_inv (cells : list Node) (d : pystr) :
  In d (date_strings cells) ->
  exists cell, In cell cells /\ node_string cell = Some d.
Proof.
  induction cells as [|c cells IH]; cbn [date_strings]; [intros []|].
  destruct (node_string c) as [s|] eqn:Hs.
  - intros [->|Hin].
    + exists c. split; [left; reflexivity | exact Hs].
    + destruct (IH Hin) as (cell & Hcell & Hd).
      exists cell. split; [right; exact Hcell | exact Hd].
  - intros Hin. destruct (IH Hin) as (cell & Hcell & Hd).
    exists cell. split; [right; exact Hcell | exact Hd].
Qed.

Lemma events_for_dates (y : N) (descr room t1 t2 : pystr)
      (dates : list pystr) :
  forall evs,
    events_for y descr room t1 t2 dates = Ok evs ->
    Forall (fun e => exists date,
                In date dates
                /\ construct_timestamp y date t1 = Ok (dt_start e)
                /\ construct_timestamp y date t2 = Ok (dt_stop e)) evs.
Proof.
  induction dates as [|date dates IH]; intros evs; cbn [events_for].
  - intros [= <-]. constructor.
  - destruct (construct_timestamp y date t1) as [start|] eqn:E1;
      cbn [bind]; [|discriminate].
    destruct (construct_timestamp y date t2) as [stop|] eqn:E2;
      cbn [bind]; [|discriminate].
    destruct (events_for y descr room t1 t2 dates) as [rest|];
      cbn [bind]; [|discriminate].
    intros [= <-]. constructor.
    + exists date. cbn [dt_start dt_stop]. split; [left; reflexivity|].
      split; assumption.
    + eapply Forall_impl; [|apply IH; reflexivity].
      intros e (d & Hin & H1 & H2). exists d.
      split; [right; exact Hin|]. split; assumption.
Qed.

Lemma process_event_rows_reconstructed (y : N) (table_lst : list Node)
      (pos : nat) (evs : list CalEvent) :
  process_event_rows y table_lst pos = Ok evs ->
  Forall (reconstructed y table_lst) evs.
Proof.
  unfold process_event_rows.
  destruct (index table_lst pos) as [detail|] eqn:Hdetail; cbn [bind];
    [|discriminate].
  destruct (row_cells detail) as [row|] eqn:Hrow; cbn [bind]; [|discriminate].
  destruct (index table_lst (pos + 1)) as [dates|] eqn:Hdates; cbn [bind];
    [|discriminate].
  destruct (row_cells dates) as [cells|] eqn:Hcells; cbn [bind];
    [|discriminate].
  destruct (index row 1) as [c1|] eqn:Hc1; cbn [bind]; [|discriminate].
  unfold sanitize_string at 1.
  destruct (node_string c1) as [s|] eqn:Hs; cbn [deref bind]; [|discriminate].
  do 8 match goal with
       | |- bind ?m _ = Ok _ -> _ => destruct m; cbn [bind]; [|discriminate]
       end.
  destruct (group (re_match REGEXPR_TIME_RANGE (strip s)) 1) as [t1|] eqn:Ht1;
    cbn [bind]; [|discriminate].
  destruct (group (re_match REGEXPR_TIME_RANGE (strip s)) 2) as [t2|] eqn:Ht2;
    cbn [bind]; [|discriminate].
  intros H. apply events_for_dates in H.
  eapply Forall_impl; [|exact H].
  intros e (date & Hin & E1 & E2).
  apply date_strings_inv in Hin as (cell & Hcell & Hd).
  split; [|split; eapply construct_timestamp_ok_valid; eassumption].
  exists pos, detail, dates, row, cells, c1, s, cell, date, t1, t2.
  repeat match goal with |- _ /\ _ => split end; assumption.
Qed.

Lemma scan_loop_reconstructed (y : N) (tables : list Node) (stop_ind : nat)
      (fuel : nat) :
  forall cur acc evs,
    Forall (reconstructed y tables) acc ->
    scan_loop fuel y tables stop_ind cur acc = Some (Ok evs) ->
    Forall (reconstructed y tables) evs.
Proof.
  induction fuel as [|fuel IH]; intros cur acc evs Hacc; cbn [scan_loop];
    destruct (cur <? stop_ind); try discriminate;
    try (intros [= <-]; exact Hacc).
  destruct (index tables cur) as [tb|]; [|discriminate].
  destruct (is_week_row tb) as [w|]; [|discriminate].
  destruct (process_event_rows y tables (if truthy w then cur + 2 else cur))
    as [new|] eqn:Hp; [|discriminate].
  apply IH. apply Forall_app. split; [exact Hacc|].
  exact (process_event_rows_reconstructed _ _ _ Hp).
Qed.

(** C9, as stated, fails: for a row whose time range reads
    ["10:00 to 09:00"] the scan produces records that start after they
    end. *)
Lemma start_after_end_counterexample :
  main_event_list 2024 (scenario "10:00 to 09:00")
  = Some (Ok [ mkCalEvent (lit "Intro to Systems (H00A0a)") (lit "200B")
                 (mkArrow 2024 3 18 10 0) (mkArrow 2024 3 18 9 0);
               mkCalEvent (lit "Intro to Systems (H00A0a)") (lit "200B")
                 (mkArrow 2024 3 25 10 0) (mkArrow 2024 3 25 9 0) ])
  /\ arrow_ltb (mkArrow 2024 3 18 10 0) (mkArrow 2024 3 18 9 0) = false.
Proof. split; reflexivity. Qed.

(** C9, amended.  Every record a scan produces comes from an event group
    of the tables: its start and its end are the reconstruction, with the
    current year, of the text of one date cell of the group's row of dates
    with the first and with the second time of the time range of the
    group's row of details; and each of the two names a month from 1 to
    12, a day of that month, an hour up to 23 and a minute up to 59.
    Nothing orders the start before the end. *)
Theorem records_are_reconstructed (cur_year : N) (tables_lst : list Node)
        (evs : list CalEvent) :
  main_event_list cur_year tables_lst = Some (Ok evs) ->
  Forall (reconstructed cur_year tables_lst) evs.
Proof.
  unfold main_event_list.
  destruct (find_week_row tables_lst 0) as [w|]; [|discriminate].
  destruct (add_int w 2) as [cur|]; [|discriminate].
  apply scan_loop_reconstructed. constructor.
Qed.

Lemma records_are_reconstructed_witness :
  Forall (reconstructed 2024 (scenario "09:00 to 10:00")) scenario_events.
Proof.
  exact (@records_are_reconstructed 2024 (scenario "09:00 to 10:00")
           scenario_events eq_refl).
Defined.

(** ** A well-formed event group *)

Lemma time_range_match_plain (h1 m1 ws1 w ws2 h2 m2 : pystr) :
  run_of is_digit h1 -> run_of is_digit m1 ->
  forallb is_space ws1 = true ->
  run_of (fun c => is_word c && negb (is_digit c)) w ->
  run_of is_space ws2 ->
  run_of is_digit h2 -> run_of is_digit m2 ->
  re_match REGEXPR_TIME_RANGE
    (h1 ++ ":"%char :: m1 ++ ws1 ++ w ++ ws2 ++ h2 ++ ":"%char :: m2)
  = Some [h1 ++ ":"%char :: m1; h2 ++ ":"%char :: m2].
Proof.
  intros. rewrite <- (app_nil_r m2) at 1.
  apply time_range_match_ok; auto. exact I.
Qed.

Lemma date_strings_length (cells : list Node) :
  length (date_strings cells) = length (filter has_text cells).
Proof.
  induction cells as [|c cells IH]; cbn [date_strings filter]; auto.
  unfold has_text. destruct (node_string c); cbn [length]; auto.
Qed.


Lemma date_strings_ok (y : N) (cells : list Node) :
  Forall (date_cell_ok y) cells ->
  Forall (fun d => exists dd mm, d = dd ++ "."%char :: mm /\ date_text y dd mm)
    (date_strings cells).
Proof.
  induction 1 as [|c cells Hc _ IH]; cbn [date_strings]; [constructor|].
  unfold date_cell_ok in Hc. destruct (node_string c); auto.
Qed.

Lemma events_for_well_formed (y : N) (descr room code hh1 nn1 hh2 nn2 : pystr)
      (dates : list pystr) :
  (1000 <= y <= 9999)%N -> time_text hh1 nn1 -> time_text hh2 nn2 ->
  Forall (fun d => exists dd mm, d = dd ++ "."%char :: mm /\ date_text y dd mm)
    dates ->
  exists evs,
    events_for y (descr ++ lit " (" ++ code ++ lit ")") room
      (hh1 ++ ":"%char :: nn1) (hh2 ++ ":"%char :: nn2) dates = Ok evs
    /\ Forall2 (record_of y descr room code hh1 nn1 hh2 nn2) evs dates.
Proof.
  intros Hy Ht1 Ht2 Hdates.
  induction Hdates as [|d dates (dd & mm & -> & Hd) _ (evs & Hevs & Hrec)];
    cbn [events_for].
  - exists []. split; [reflexivity | constructor].
  - rewrite !construct_timestamp_valid by assumption. cbn [bind].
    rewrite Hevs. cbn [bind]. eexists. split; [reflexivity|].
    constructor; [|exact Hrec]. exists dd, mm. split; reflexivity.
Qed.



(* ================================================================= *)
(** * Further properties of the code *)

(** ** [sanitize_string] *)

Lemma lstrip_head (s : pystr) : head_not is_space (lstrip s).
Proof.
  induction s as [|c s IH]; cbn [lstrip]; [exact I|].
  destruct (is_space c) eqn:E; [exact IH | exact E].
Qed.

Lemma lstrip_spaces (ws t : pystr) :
  forallb is_space ws = true -> lstrip (ws ++ t) = lstrip t.
Proof.
  induction ws as [|c ws IH]; cbn [forallb app lstrip]; auto.
  intros H. apply andb_true_iff in H as [-> H]. auto.
Qed.

Lemma lstrip_fixed (t : pystr) : head_not is_space t -> lstrip t = t.
Proof.
  destruct t as [|c t]; cbn [head_not lstrip]; auto. intros ->. reflexivity.
Qed.

Lemma lstrip_suffix (s : pystr) : exists pre, s = pre ++ lstrip s.
Proof.
  induction s as [|c s [pre IH]]; cbn [lstrip]; [exists []; reflexivity|].
  destruct (is_space c); [|exists []; reflexivity].
  exists (c :: pre). cbn [app]. rewrite <- IH. reflexivity.
Qed.

Lemma rstrip_prefix (s : pystr) : exists post, s = rstrip s ++ post.
Proof.
  unfold rstrip. destruct (lstrip_suffix (rev s)) as [pre H].
  exists (rev pre). rewrite <- rev_app_distr, <- H, rev_involutive.
  reflexivity.
Qed.

Lemma strip_trimmed (s : pystr) : trimmed (strip s).
Proof.
  unfold trimmed, strip. split.
  - destruct (rstrip_prefix (lstrip s)) as [post H].
    pose proof (lstrip_head s) as Hh. rewrite H in Hh.
    destruct (rstrip (lstrip s)); [exact I | exact Hh].
  - unfold rstrip. rewrite rev_involutive. apply lstrip_head.
Qed.

Lemma forallb_rev_true (cls : ascii -> bool) (s : pystr) :
  forallb cls s = true -> forallb cls (rev s) = true.
Proof.
  intros H. rewrite forallb_forall in *. intros c Hc.
  apply H. apply in_rev. exact Hc.
Qed.

Lemma strip_core (ws1 core ws2 : pystr) :
  forallb is_space ws1 = true -> forallb is_space ws2 = true ->
  trimmed core -> strip (ws1 ++ core ++ ws2) = core.
Proof.
  intros H1 H2 [Hh Ht]. unfold strip. rewrite lstrip_spaces by exact H1.
  destruct core as [|c core].
  - cbn [app]. rewrite <- (app_nil_r ws2), lstrip_spaces by exact H2.
    reflexivity.
  - rewrite lstrip_fixed by exact Hh. unfold rstrip.
    rewrite rev_app_distr, lstrip_spaces
      by (apply forallb_rev_true; exact H2).
    rewrite lstrip_fixed by exact Ht. apply rev_involutive.
Qed.

(** X1.  [sanitize_string] removes the white space around a text and
    nothing else: white space, a text that neither starts nor ends with
    white space, and white space again give back the text in the
    middle. *)
Theorem sanitize_string_removes_outer_space (ws1 core ws2 : pystr) :
  forallb is_space ws1 = true -> forallb is_space ws2 = true ->
  trimmed core ->
  sanitize_string (Some (ws1 ++ core ++ ws2)) = Ok core.
Proof.
  intros H1 H2 Hc. cbn [sanitize_string deref bind].
  rewrite strip_core by assumption. reflexivity.
Qed.

Lemma sanitize_string_removes_outer_space_witness :
  sanitize_string
    (Some (["013"%char; "010"%char] ++ lit "200 B" ++ ["013"%char; "010"%char]))
  = Ok (lit "200 B").
Proof.
  apply sanitize_string_removes_outer_space;
    [reflexivity | reflexivity | split; reflexivity].
Defined.

(** X2.  What [sanitize_string] returns has no white space at either end,
    and sanitizing it again changes nothing; of no text at all it raises
    [AttributeError]. *)
Theorem sanitize_string_result (s t : pystr) :
  sanitize_string (Some s) = Ok t ->
  trimmed t /\ sanitize_string (Some t) = Ok t
  /\ sanitize_string None = Raise AttributeError.
Proof.
  cbn [sanitize_string deref bind]. intros [= <-].
  pose proof (strip_trimmed s) as Ht. split; [exact Ht|]. split; auto.
  rewrite <- (app_nil_r (strip s)) at 1.
  change (strip (strip s ++ [])) with (strip ([] ++ strip s ++ [])).
  rewrite strip_core by (auto; reflexivity). reflexivity.
Qed.

Lemma sanitize_string_result_witness :
  trimmed (lit "09:00 to 10:00")
  /\ sanitize_string (Some (lit "09:00 to 10:00")) = Ok (lit "09:00 to 10:00")
  /\ sanitize_string None = Raise AttributeError.
Proof.
  exact (@sanitize_string_result (" "%char :: lit "09:00 to 10:00" ++ lit "  ")
           (lit "09:00 to 10:00") eq_refl).
Defined.

(** ** [find_week_row] *)

Lemma not_week_step (tb : Node) (l : list Node) (i : nat) :
  not_week tb -> find_week_from (tb :: l) i = find_week_from l (S i).
Proof.
  intros (w & Hw & Hne). cbn [find_week_from]. rewrite Hw. cbn [bind].
  destruct w; [congruence | reflexivity | reflexivity].
Qed.

Lemma find_week_from_skip (pre l : list Node) :
  Forall not_week pre ->
  forall i, find_week_from (pre ++ l) i = find_week_from l (i + length pre).
Proof.
  induction 1 as [|tb pre Htb _ IH]; intros i; cbn [app length].
  - rewrite Nat.add_0_r. reflexivity.
  - rewrite not_week_step by exact Htb. rewrite IH. f_equal. lia.
Qed.

(** What the search returns, read off the list: it has passed over
    elements that are no week rows and has stopped at the first element
    that is one, or that cannot be classified, or at the end. *)
Lemma find_week_from_inv (l : list Node) :
  forall i r,
    find_week_from l i = r ->
    (r = Ok None /\ Forall not_week l)
    \/ exists pre tb post,
        l = pre ++ tb :: post /\ Forall not_week pre
        /\ ((is_week_row tb = Ok PyTrue /\ r = Ok (Some (i + length pre)))
            \/ exists e, is_week_row tb = Raise e /\ r = Raise e).
Proof.
  induction l as [|tb l IH]; intros i r Hr.
  - left. cbn in Hr. subst r. split; [reflexivity | constructor].
  - cbn [find_week_from] in Hr.
    destruct (is_week_row tb) as [w|e] eqn:Hw; cbn [bind] in Hr.
    + destruct w; cbn [truthy] in Hr.
      * right. exists [], tb, l. cbn [app length].
        rewrite Nat.add_0_r. repeat split; auto.
      * assert (Hn : not_week tb) by (exists PyFalse; split; [auto|discriminate]).
        destruct (IH _ _ Hr) as [[-> Hall]|(pre & tb' & post & -> & Hpre & H)].
        -- left. split; auto.
        -- right. exists (tb :: pre), tb', post. cbn [app length].
           rewrite Nat.add_succ_r. repeat split; auto.
      * assert (Hn : not_week tb) by (exists PyNone; split; [auto|discriminate]).
        destruct (IH _ _ Hr) as [[-> Hall]|(pre & tb' & post & -> & Hpre & H)].
        -- left. split; auto.
        -- right. exists (tb :: pre), tb', post. cbn [app length].
           rewrite Nat.add_succ_r. repeat split; auto.
    + right. exists [], tb, l. cbn [app]. repeat split; eauto.
Qed.

Lemma find_week_from_all_not_week (l : list Node) (i : nat) :
  Forall not_week l -> find_week_from l i = Ok None.
Proof.
  intros H. rewrite <- (app_nil_r l), find_week_from_skip by exact H.
  reflexivity.
Qed.

Lemma find_week_from_at_marker (pre post : list Node) (tb : Node) (i : nat) :
  Forall not_week pre -> is_week_row tb = Ok PyTrue ->
  find_week_from (pre ++ tb :: post) i = Ok (Some (i + length pre)).
Proof.
  intros Hpre Htb. rewrite find_week_from_skip by exact Hpre.
  cbn [find_week_from]. rewrite Htb. reflexivity.
Qed.

Lemma find_week_from_at_raise (pre post : list Node) (tb : Node) (i : nat) e :
  Forall not_week pre -> is_week_row tb = Raise e ->
  find_week_from (pre ++ tb :: post) i = Raise e.
Proof.
  intros Hpre Htb. rewrite find_week_from_skip by exact Hpre.
  cbn [find_week_from]. rewrite Htb. reflexivity.
Qed.

(** X3.  [find_week_row] returns the index of the first week row at or
    after [pos]: it returns [i] exactly when the elements from [pos] on
    begin with elements classified as no week rows followed, at index [i],
    by a week row; it returns no index exactly when every element from
    [pos] on is classified as no week row. *)
Theorem find_week_row_first (table_lst : list Node) (pos : nat) :
  (forall i,
      find_week_row table_lst pos = Ok (Some i)
      <-> exists pre tb post,
          skipn pos table_lst = pre ++ tb :: post
          /\ Forall not_week pre /\ is_week_row tb = Ok PyTrue
          /\ i = pos + length pre)
  /\ (find_week_row table_lst pos = Ok None
      <-> Forall not_week (skipn pos table_lst)).
Proof.
  unfold find_week_row. split; [intro i|]; split.
  - intros H.
    destruct (find_week_from_inv _ _ H)
      as [[E _]|(pre & tb & post & Hl & Hpre & [[Htb E]|(e & _ & E)])];
      try discriminate.
    injection E as ->. exists pre, tb, post. auto.
  - intros (pre & tb & post & -> & Hpre & Htb & ->).
    apply find_week_from_at_marker; assumption.
  - intros H.
    destruct (find_week_from_inv _ _ H)
      as [[_ Hall]|(pre & tb & post & Hl & Hpre & [[Htb E]|(e & _ & E)])];
      try discriminate.
    exact Hall.
  - apply find_week_from_all_not_week.
Qed.

Lemma find_week_row_first_witness :
  find_week_row [day_table; dates_table; week_table; day_table] 0
  = Ok (Some 2)
  /\ find_week_row [day_table; dates_table; week_table; day_table] 3
     = Ok None.
Proof.
  assert (Hd : not_week day_table)
    by (exists PyNone; split; [reflexivity | discriminate]).
  assert (Hn : not_week dates_table)
    by (exists PyNone; split; [reflexivity | discriminate]).
  split.
  - apply (proj1 (find_week_row_first
                    [day_table; dates_table; week_table; day_table] 0) 2).
    exists [day_table; dates_table], week_table, [day_table].
    repeat split; auto.
  - apply (proj2 (find_week_row_first
                    [day_table; dates_table; week_table; day_table] 3)).
    cbn [skipn]. auto.
Defined.

(** X4.  The search raises exactly when, before any week row, it meets an
    element whose classification raises, and it raises that exception;
    [main] then ends with the same exception before its loop.  A table
    whose row has no cell at all is such an element. *)
Theorem find_week_row_raises (y : N) (tables_lst : list Node) (e : exn) :
  (find_week_row tables_lst 0 = Raise e
   <-> exists pre tb post,
       tables_lst = pre ++ tb :: post
       /\ Forall not_week pre /\ is_week_row tb = Raise e)
  /\ (find_week_row tables_lst 0 = Raise e ->
      main_event_list y tables_lst = Some (Raise e)).
Proof.
  unfold main_event_list, find_week_row. cbn [skipn]. split; [split|].
  - intros H.
    destruct (find_week_from_inv _ _ H)
      as [[E _]|(pre & tb & post & Hl & Hpre & [[Htb E]|(e' & Htb & E)])];
      try discriminate.
    injection E as ->. exists pre, tb, post. auto.
  - intros (pre & tb & post & -> & Hpre & Htb).
    apply find_week_from_at_raise; assumption.
  - intros ->. reflexivity.
Qed.

Lemma find_week_row_raises_witness :
  find_week_row [day_table; table_row []; week_table] 0 = Raise IndexError
  /\ main_event_list 2024 [day_table; table_row []; week_table]
     = Some (Raise IndexError).
Proof.
  assert (H : find_week_row [day_table; table_row []; week_table] 0
              = Raise IndexError).
  { apply (proj1 (find_week_row_raises 2024
                    [day_table; table_row []; week_table] IndexError)).
    exists [day_table], (table_row []), [week_table].
    repeat split; auto.
    constructor; [|constructor].
    exists PyNone. split; [reflexivity | discriminate]. }
  split; [exact H|].
  exact (proj2 (find_week_row_raises 2024
                  [day_table; table_row []; week_table] IndexError) H).
Defined.

(** ** [is_week_row] on the tables of the page *)

Lemma is_week_row_row_not_false (tr_el : Node) :
  (td0 <- index (node_contents tr_el) 0 ;;
   td_el <- (if opt_str_eqb (node_string td0) ["010"%char]
             then index (node_contents tr_el) 1 else Ok td0) ;;
   match td_el with
   | NavigableString _ => Ok PyNone
   | Tag _ _ =>
       match find (lit "font") td_el with
       | None => Ok PyNone
       | Some font =>
           txt <- sanitize_string (node_string font) ;;
           if str_eqb txt (lit "Week") then Ok PyTrue else Ok PyNone
       end
   end) <> Ok PyFalse.
Proof.
  destruct (index (node_contents tr_el) 0) as [td0|]; cbn [bind];
    [|discriminate].
  destruct (if opt_str_eqb (node_string td0) ["010"%char]
            then index (node_contents tr_el) 1 else Ok td0) as [td_el|];
    cbn [bind]; [|discriminate].
  destruct td_el; [|discriminate].
  destruct (find _ _) as [font|]; [|discriminate].
  destruct (sanitize_string (node_string font)) as [txt|]; cbn [bind];
    [|discriminate].
  destruct (str_eqb txt (lit "Week")); discriminate.
Qed.

(** X5.  The classifier answers [False] exactly for a tag that is not
    named [table] or that has no row; for a table with a row it answers
    [True] or nothing, or raises.  On the list [main] builds, whose elements
    are all tags named [table], it answers [False] exactly for the tables
    without a row. *)
Theorem is_week_row_false (el : Node) :
  (is_week_row el = Ok PyFalse
   <-> exists nm cs,
       el = Tag nm cs
       /\ (lower nm <> lit "table" \/ find (lit "tr") el = None))
  /\ forall center,
      In el (tables_of center) ->
      (exists cs, el = Tag (lit "table") cs)
      /\ (is_week_row el = Ok PyFalse <-> find (lit "tr") el = None).
Proof.
  assert (Hiff : is_week_row el = Ok PyFalse
                 <-> exists nm cs,
                     el = Tag nm cs
                     /\ (lower nm <> lit "table" \/ find (lit "tr") el = None)).
  { unfold is_week_row. destruct el as [nm cs|s]; cbn [node_name deref bind].
    - destruct (str_eqb (lower nm) (lit "table")) eqn:Hnm; cbn [negb].
      + apply str_eqb_eq in Hnm. cbn [getattr_tag bind].
        destruct (find (lit "tr") (Tag nm cs)) as [tr_el|] eqn:Htr.
        * split.
          -- intros H. exfalso. exact (is_week_row_row_not_false _ H).
          -- intros (nm' & cs' & [= <- <-] & [H|H]); congruence.
        * split; [|reflexivity]. intros _. exists nm, cs. auto.
      + split; [|reflexivity]. intros _. exists nm, cs. split; [reflexivity|].
        left. intros E. apply str_eqb_eq in E. congruence.
    - split; [discriminate|]. intros (nm & cs & E & _). discriminate. }
  split; [exact Hiff|].
  intros center Hin. unfold tables_of in Hin.
  apply filter_In in Hin as [_ Hnamed].
  destruct el as [nm cs|s]; [|discriminate].
  cbn [named] in Hnamed. apply str_eqb_eq in Hnamed. subst nm.
  split; [exists cs; reflexivity|].
  rewrite Hiff. split.
  - intros (nm' & cs' & [= <- <-] & [H|H]); [|exact H].
    exfalso. apply H. reflexivity.
  - intros H. exists (lit "table"), cs. auto.
Qed.

Lemma is_week_row_false_witness :
  is_week_row (Tag (lit "table") [text "no row"]) = Ok PyFalse.
Proof.
  apply (proj2 (proj2 (proj2 (is_week_row_false
                                (Tag (lit "table") [text "no row"]))
                         (Tag (lit "center")
                            [text "x"; Tag (lit "table") [text "no row"]])
                         (or_introl eq_refl)))).
  reflexivity.
Defined.

(** ** [process_event_rows] *)

Lemma events_for_shape (y : N) (descr room t1 t2 : pystr)
      (dates : list pystr) :
  forall evs,
    events_for y descr room t1 t2 dates = Ok evs ->
    length evs = length dates
    /\ Forall (fun e => description e = descr /\ location e = room) evs.
Proof.
  induction dates as [|date dates IH]; intros evs; cbn [events_for].
  - intros [= <-]. split; [reflexivity | constructor].
  - destruct (construct_timestamp y date t1) as [start|]; cbn [bind];
      [|discriminate].
    destruct (construct_timestamp y date t2) as [stop|]; cbn [bind];
      [|discriminate].
    destruct (events_for y descr room t1 t2 dates) as [rest|]; cbn [bind];
      [|discriminate].
    intros [= <-]. destruct (IH rest eq_refl) as [Hl Hall].
    split; [cbn [length]; congruence|].
    constructor; [split; reflexivity | exact Hall].
Qed.

(** X6.  Whenever [process_event_rows] returns, it returns as many records
    as the row after the detail row has cells with text, and all of them
    have one and the same description and location. *)
Theorem process_event_rows_count (y : N) (table_lst : list Node) (pos : nat)
        (evs : list CalEvent) :
  process_event_rows y table_lst pos = Ok evs ->
  exists dates cells descr room,
    nth_error table_lst (pos + 1) = Some dates
    /\ row_cells dates = Ok cells
    /\ length evs = length (filter has_text cells)
    /\ Forall (fun e => description e = descr /\ location e = room) evs.
Proof.
  unfold process_event_rows, index.
  destruct (nth_error table_lst pos) as [detail|]; cbn [bind]; [|discriminate].
  destruct (row_cells detail) as [row|]; cbn [bind]; [|discriminate].
  destruct (nth_error table_lst (pos + 1)) as [dates|] eqn:Hdates;
    cbn [bind]; [|discriminate].
  destruct (row_cells dates) as [cells|] eqn:Hcells; cbn [bind];
    [|discriminate].
  repeat match goal with
         | |- bind ?m _ = Ok _ -> _ =>
             destruct m; cbn [bind]; [|discriminate]
         end.
  intros H. apply events_for_shape in H as [Hl Hall].
  eexists dates, cells, _, _. repeat split; eauto.
  rewrite Hl. apply date_strings_length.
Qed.

Lemma process_event_rows_count_witness :
  exists dates cells descr room,
    nth_error (scenario "09:00 to 10:00") (2 + 1) = Some dates
    /\ row_cells dates = Ok cells
    /\ length scenario_events = length (filter has_text cells)
    /\ Forall (fun e => description e = descr /\ location e = room)
         scenario_events.
Proof.
  exact (@process_event_rows_count 2024 (scenario "09:00 to 10:00") 2
           scenario_events eq_refl).
Defined.

Lemma index_raise (A : Type) (l : list A) (i : nat) (e : exn) :
  index l i = Raise e -> shape_error e.
Proof.
  unfold index. destruct (nth_error l i); [discriminate|].
  intros [= <-]. left. reflexivity.
Qed.

Lemma deref_raise (A : Type) (o : option A) (e : exn) :
  deref o = Raise e -> shape_error e.
Proof.
  destruct o; [discriminate|]. intros [= <-]. right. reflexivity.
Qed.

Lemma getattr_tag_raise (nm : pystr) (n : Node) (e : exn) :
  getattr_tag nm n = Raise e -> shape_error e.
Proof.
  destruct n; [discriminate|]. intros [= <-]. right. reflexivity.
Qed.

Lemma sanitize_string_raise (o : option pystr) (e : exn) :
  sanitize_string o = Raise e -> shape_error e.
Proof.
  destruct o; [discriminate|]. intros [= <-]. right. reflexivity.
Qed.

Lemma row_cells_raise (t : Node) (e : exn) :
  row_cells t = Raise e -> shape_error e.
Proof.
  unfold row_cells.
  destruct (getattr_tag (lit "tr") t) as [tr|e'] eqn:E; cbn [bind].
  - destruct tr; cbn [deref bind]; [discriminate|].
    intros [= <-]. right. reflexivity.
  - intros [= <-]. exact (getattr_tag_raise _ _ E).
Qed.

(** One statement of the body that can only raise for a missing element
    or attribute. *)
Ltac step_shape :=
  match goal with
  | |- exists e, bind ?m _ = Raise e /\ shape_error e =>
      let E := fresh "E" in
      destruct m eqn:E; cbn [bind];
      [| eexists; split; [reflexivity|];
         first [ exact (index_raise _ _ E) | exact (row_cells_raise _ E)
               | exact (sanitize_string_raise _ E)
               | exact (getattr_tag_raise _ _ E) | exact (deref_raise _ E) ] ]
  end.

Lemma process_event_rows_out_of_range (y : N) (table_lst : list Node)
      (pos : nat) :
  length table_lst <= pos + 1 ->
  exists e, process_event_rows y table_lst pos = Raise e /\ shape_error e.
Proof.
  intros Hlen. unfold process_event_rows.
  do 2 step_shape.
  assert (Hnone : index table_lst (pos + 1) = Raise IndexError).
  { unfold index.
    replace (nth_error table_lst (pos + 1)) with (@None Node);
      [reflexivity|].
    symmetry. apply nth_error_None. exact Hlen. }
  rewrite Hnone. cbn [bind]. eexists. split; [reflexivity | left; reflexivity].
Qed.

(** X7.  [process_event_rows] returns nothing and raises [IndexError] or
    [AttributeError] when the list has no two tables from [pos] on, and
    when the detail row has fewer than five cells. *)
Theorem process_event_rows_bounds (y : N) (table_lst : list Node) (pos : nat) :
  (length table_lst <= pos + 1 ->
   exists e, process_event_rows y table_lst pos = Raise e /\ shape_error e)
  /\ (forall detail row,
         nth_error table_lst pos = Some detail -> row_cells detail = Ok row ->
         length row < 5 ->
         exists e, process_event_rows y table_lst pos = Raise e
                   /\ shape_error e).
Proof.
  split; [apply process_event_rows_out_of_range|].
  - intros detail row Hdetail Hrow Hlen. unfold process_event_rows, index at 1.
    rewrite Hdetail. cbn [bind]. rewrite Hrow. cbn [bind].
    do 11 step_shape.
    exfalso.
    match goal with
    | A : index row 4 = Ok _ |- _ => unfold index in A;
        destruct (nth_error row 4) eqn:Hfifth; [|discriminate A]
    end.
    assert (Hsome : nth_error row 4 <> None) by congruence.
    apply nth_error_Some in Hsome. lia.
Qed.

Lemma process_event_rows_bounds_witness :
  (exists e, process_event_rows 2024 [detail_table "09:00 to 10:00"] 0 = Raise e
             /\ shape_error e)
  /\ (exists e,
         process_event_rows 2024
           [table_row [td []; td [text "09:00 to 10:00"]]; dates_table] 0
         = Raise e /\ shape_error e).
Proof.
  split.
  - apply (proj1 (process_event_rows_bounds 2024
                    [detail_table "09:00 to 10:00"] 0)).
    cbn. lia.
  - apply (proj2 (process_event_rows_bounds 2024
                    [table_row [td []; td [text "09:00 to 10:00"]];
                     dates_table] 0)
             (table_row [td []; td [text "09:00 to 10:00"]])
             [td []; td [text "09:00 to 10:00"]]);
      [reflexivity | reflexivity | cbn; lia].
Defined.

(** ** The loop of [main] *)

Lemma scan_loop_groups (y : N) (tables : list Node) (stop_ind : nat)
      (fuel : nat) :
  forall cur acc evs,
    scan_loop fuel y tables stop_ind cur acc = Some (Ok evs) ->
    exists ps groups,
      Forall2 (fun p g => process_event_rows y tables p = Ok g) ps groups
      /\ evs = acc ++ concat groups /\ steps_from cur ps.
Proof.
  induction fuel as [|fuel IH]; intros cur acc evs; cbn [scan_loop];
    destruct (cur <? stop_ind); try discriminate;
    try (intros [= <-]; exists [], []; cbn [concat steps_from];
         rewrite app_nil_r; repeat split; constructor).
  destruct (index tables cur) as [tb|]; [|discriminate].
  destruct (is_week_row tb) as [w|]; [|discriminate].
  destruct (process_event_rows y tables (if truthy w then cur + 2 else cur))
    as [new|] eqn:Hp; [|discriminate].
  intros H. destruct (IH _ _ _ H) as (ps & groups & Hall & -> & Hsteps).
  exists ((if truthy w then cur + 2 else cur) :: ps), (new :: groups).
  cbn [concat steps_from]. rewrite app_assoc.
  repeat split; auto. destruct (truthy w); auto.
Qed.

(** X8.  The records of a scan are the records of pairs of rows, put one
    after the other in the order of the page: the pairs start at positions
    that go up from two places after the first week row, each at the cursor
    or two places after it, the cursor being two places after the pair
    before. *)
Theorem scan_events_in_order (y : N) (tables_lst : list Node)
        (evs : list CalEvent) :
  main_event_list y tables_lst = Some (Ok evs) ->
  exists i ps groups,
    find_week_row tables_lst 0 = Ok (Some i)
    /\ steps_from (i + 2) ps
    /\ Forall2 (fun p g => process_event_rows y tables_lst p = Ok g) ps groups
    /\ evs = concat groups.
Proof.
  unfold main_event_list.
  destruct (find_week_row tables_lst 0) as [[i|]|]; cbn [add_int];
    try discriminate.
  intros H. destruct (scan_loop_groups _ _ _ _ _ _ H)
    as (ps & groups & Hall & -> & Hsteps).
  exists i, ps, groups. auto.
Qed.

Lemma scan_events_in_order_witness :
  exists i ps groups,
    find_week_row (scenario "09:00 to 10:00" ++ scenario "11:00 to 12:00"
                     ++ [trailer_table]) 0 = Ok (Some i)
    /\ steps_from (i + 2) ps
    /\ Forall2
         (fun p g =>
            process_event_rows 2024
              (scenario "09:00 to 10:00" ++ scenario "11:00 to 12:00"
                 ++ [trailer_table]) p = Ok g) ps groups
    /\ scenario_events
         ++ [ mkCalEvent (lit "Intro to Systems (H00A0a)") (lit "200B")
                (mkArrow 2024 3 18 11 0) (mkArrow 2024 3 18 12 0);
              mkCalEvent (lit "Intro to Systems (H00A0a)") (lit "200B")
                (mkArrow 2024 3 25 11 0) (mkArrow 2024 3 25 12 0) ]
       = concat groups.
Proof.
  exact (@scan_events_in_order 2024
           (scenario "09:00 to 10:00" ++ scenario "11:00 to 12:00"
              ++ [trailer_table]) _ eq_refl).
Defined.

Lemma scan_loop_past_stop (fuel : nat) (y : N) (tables : list Node)
      (stop_ind cur : nat) (acc : list CalEvent) :
  stop_ind <= cur ->
  scan_loop fuel y tables stop_ind cur acc = Some (Ok acc).
Proof.
  intros H. apply Nat.ltb_ge in H.
  destruct fuel; cbn [scan_loop]; rewrite H; reflexivity.
Qed.

(** X9.  When the first week row has at most two elements after it, the
    loop of [main] is not entered and the scan returns the empty list. *)
Theorem scan_of_nothing_after_marker (y : N) (tables_lst : list Node)
        (i : nat) :
  find_week_row tables_lst 0 = Ok (Some i) ->
  length tables_lst <= i + 3 ->
  main_event_list y tables_lst = Some (Ok []).
Proof.
  intros Hi Hlen. unfold main_event_list. rewrite Hi. cbn [add_int].
  apply scan_loop_past_stop. lia.
Qed.

Lemma scan_of_nothing_after_marker_witness :
  main_event_list 2024 [week_table; day_table; trailer_table] = Some (Ok []).
Proof.
  apply (@scan_of_nothing_after_marker 2024
           [week_table; day_table; trailer_table] 0); [reflexivity|].
  cbn. lia.
Defined.

(** X10.  When the element two places after the first week row is itself
    a week row and one or two elements follow it, the scan raises
    [IndexError] or [AttributeError]: after the week row and the element
    after it have been skipped, the pair of rows is looked for beyond the
    end. *)
Theorem scan_week_marker_at_end (y : N) (tables_lst : list Node)
        (i : nat) (tb : Node) :
  find_week_row tables_lst 0 = Ok (Some i) ->
  nth_error tables_lst (i + 2) = Some tb -> is_week_row tb = Ok PyTrue ->
  i + 3 < length tables_lst <= i + 5 ->
  exists e, main_event_list y tables_lst = Some (Raise e) /\ shape_error e.
Proof.
  intros Hi Htb Hweek [Hlo Hhi]. unfold main_event_list.
  rewrite Hi. cbn [add_int].
  destruct (length tables_lst) as [|fuel] eqn:Hlen; [lia|].
  cbn [scan_loop].
  replace (i + 2 <? S fuel - 1) with true
    by (symmetry; apply Nat.ltb_lt; lia).
  unfold index. rewrite Htb, Hweek. cbn [truthy].
  destruct (@process_event_rows_out_of_range y tables_lst (i + 2 + 2))
    as (e & -> & He); [lia|].
  exists e. auto.
Qed.

Lemma scan_week_marker_at_end_witness :
  exists e,
    main_event_list 2024 [week_table; day_table; week_table; day_table]
    = Some (Raise e) /\ shape_error e.
Proof.
  apply (@scan_week_marker_at_end 2024
           [week_table; day_table; week_table; day_table] 0 week_table);
    try reflexivity.
  cbn. lia.
Defined.

(** ** What the two patterns accept *)

(** X11.  Whenever the time-range pattern matches a text, the text begins
    with a time of digits, a colon and digits, then optional white space, a
    word, optional white space and a second such time, and the two groups
    are the two times: what is handed on as start and end time consists of
    digits and one colon only. *)
Theorem time_range_match_shape (s : pystr) (caps : list pystr) :
  re_match REGEXPR_TIME_RANGE s = Some caps ->
  exists h1 m1 ws1 w ws2 h2 m2 rest,
    s = h1 ++ ":"%char :: m1 ++ ws1 ++ w ++ ws2 ++ h2 ++ ":"%char :: m2 ++ rest
    /\ run_of is_digit h1 /\ run_of is_digit m1
    /\ forallb is_space ws1 = true /\ run_of is_word w
    /\ forallb is_space ws2 = true
    /\ run_of is_digit h2 /\ run_of is_digit m2
    /\ caps = [h1 ++ ":"%char :: m1; h2 ++ ":"%char :: m2].
Proof.
  unfold re_match, REGEXPR_TIME_RANGE. cbn [m_items]. intros H.
  apply time_group_inv in H as (h1 & m1 & rest1 & -> & Hh1 & Hm1 & H).
  cbn [m_atom star plus] in H.
  apply rep_inv in H as (ws1 & rest2 & -> & Hws1 & _ & H).
  apply rep_inv in H as (w & rest3 & -> & Hw & Hwl & H).
  apply rep_inv in H as (ws2 & rest4 & -> & Hws2 & _ & H).
  apply time_group_inv in H as (h2 & m2 & rest & -> & Hh2 & Hm2 & H).
  cbn in H. rewrite !consumed_app3 in H. injection H as <-.
  exists h1, m1, ws1, w, ws2, h2, m2, rest.
  repeat split; auto; try apply Hh1; try apply Hm1; try apply Hh2;
    try apply Hm2.
  - destruct w; [cbn in Hwl; lia | discriminate].
Qed.

Lemma time_range_match_shape_witness :
  exists h1 m1 ws1 w ws2 h2 m2 rest,
    lit "9:05 tot 10:00 uur"
    = h1 ++ ":"%char :: m1 ++ ws1 ++ w ++ ws2 ++ h2 ++ ":"%char :: m2 ++ rest
    /\ run_of is_digit h1 /\ run_of is_digit m1
    /\ forallb is_space ws1 = true /\ run_of is_word w
    /\ forallb is_space ws2 = true
    /\ run_of is_digit h2 /\ run_of is_digit m2
    /\ [lit "9:05"; lit "10:00"] = [h1 ++ ":"%char :: m1; h2 ++ ":"%char :: m2].
Proof.
  exact (@time_range_match_shape (lit "9:05 tot 10:00 uur")
           [lit "9:05"; lit "10:00"] eq_refl).
Defined.

(** X12.  The date pattern matches a text exactly when the text begins
    with digits, a dot and digits; the first group is the digits before
    the dot and the second group all the digits after it, whatever comes
    next. *)
Theorem date_match_iff (s : pystr) (caps : list pystr) :
  re_match REGEXPR_Date s = Some caps
  <-> exists d m rest,
      s = d ++ "."%char :: m ++ rest
      /\ run_of is_digit d /\ run_of is_digit m /\ head_not is_digit rest
      /\ caps = [d; m].
Proof.
  split.
  - unfold re_match, REGEXPR_Date. cbn [m_items m_atoms m_atom plus].
    intros H.
    apply rep_inv in H as (d & rest1 & -> & Hd & Hdl & H).
    destruct rest1 as [|c s2]; [discriminate|].
    destruct (Ascii.eqb "." c) eqn:Hc; [|discriminate].
    apply Ascii.eqb_eq in Hc. subst c.
    pose proof H as H0.
    apply rep_inv in H0 as (run0 & rest0 & E0 & Hrun0 & Hl0 & _).
    destruct (span_run is_digit s2) as (m & rest & -> & Hm & Hrest).
    assert (Hml : 1 <= length m).
    { destruct m as [|c m]; [|cbn; lia]. exfalso.
      destruct run0 as [|c0 run0]; [cbn in Hl0; lia|].
      cbn [app] in E0. rewrite E0 in Hrest. cbn in Hrest, Hrun0.
      rewrite Hrest in Hrun0. discriminate. }
    rewrite (@rep_run _ is_digit m rest _
               [d; m] 1 Hm Hml Hrest) in H.
    + injection H as <-. exists d, m, rest.
      auto 10 using run_of_length.
    + cbn. rewrite !consumed_app. reflexivity.
  - intros (d & m & rest & -> & Hd & Hm & Hrest & ->).
    apply date_match_ok; assumption.
Qed.

Lemma date_match_iff_witness :
  re_match REGEXPR_Date (lit "18.03 (wk 12)") = Some [lit "18"; lit "03"].
Proof.
  apply (proj2 (date_match_iff (lit "18.03 (wk 12)") [lit "18"; lit "03"])).
  exists (lit "18"), (lit "03"), (lit " (wk 12)").
  repeat split; try reflexivity; discriminate.
Defined.

(** ** [construct_timestamp] at its edges *)

(** X13.  Text after the day and month of a date, provided it does not go
    on with a digit, plays no part in the reconstruction. *)
Theorem construct_timestamp_ignores_tail (y : N) (d m rest time : pystr) :
  run_of is_digit d -> run_of is_digit m -> head_not is_digit rest ->
  construct_timestamp y (d ++ "."%char :: m ++ rest) time
  = construct_timestamp y (d ++ "."%char :: m) time.
Proof.
  intros Hd Hm Hrest. unfold construct_timestamp, date_str.
  rewrite date_match_ok, date_match_plain by assumption. reflexivity.
Qed.

Lemma construct_timestamp_ignores_tail_witness :
  construct_timestamp 2024 (lit "18.03abc") (lit "09:00")
  = construct_timestamp 2024 (lit "18.03") (lit "09:00")
  /\ construct_timestamp 2024 (lit "18.03") (lit "09:00")
     = Ok (mkArrow 2024 3 18 9 0).
Proof.
  split; [|reflexivity].
  apply (@construct_timestamp_ignores_tail 2024 (lit "18") (lit "03")
           (lit "abc") (lit "09:00"));
    try (split; [discriminate | reflexivity]); reflexivity.
Defined.

(** X14.  A date of two digits, a dot and two digits and a time of two
    digits, a colon and two digits that do not name a minute of a day of
    the current year -- a month 00 or above 12, a day 00 or beyond the end
    of the month, 29.02 in a year that is no leap year, an hour above 24 or
    a minute above 59 -- raise [ValueError]. *)
Theorem construct_timestamp_no_such_day (y : N) (dd mm hh nn : pystr) :
  (1000 <= y <= 9999)%N ->
  two_digits dd -> two_digits mm -> two_digits hh -> two_digits nn ->
  int_of hh <> 24%N ->
  ~ ((1 <= int_of mm <= 12)%N
     /\ (1 <= int_of dd <= days_in_month y (int_of mm))%N
     /\ (int_of hh <= 23)%N /\ (int_of nn <= 59)%N) ->
  construct_timestamp y (dd ++ "."%char :: mm) (hh ++ ":"%char :: nn)
  = Raise ValueError.
Proof.
  intros Hy Hdd Hmm Hhh Hnn H24 Hbad.
  rewrite <- (app_nil_r mm) at 1.
  rewrite construct_timestamp_digits;
    auto using two_digits_run, two_digits_le; [|exact I].
  unfold build_datetime.
  replace (int_of hh =? 24)%N with false
    by (symmetry; apply N.eqb_neq; exact H24).
  unfold datetime.
  destruct (_ && _) eqn:Hc; [|reflexivity].
  exfalso. apply Hbad.
  repeat (apply andb_true_iff in Hc as [Hc ?]).
  repeat match goal with
         | A : (_ <=? _)%N = true |- _ => apply N.leb_le in A
         end.
  lia.
Qed.

Lemma construct_timestamp_no_such_day_witness :
  construct_timestamp 2023 (lit "29.02") (lit "09:00") = Raise ValueError
  /\ construct_timestamp 2024 (lit "29.02") (lit "09:00")
     = Ok (mkArrow 2024 2 29 9 0).
Proof.
  split; [|reflexivity].
  apply (@construct_timestamp_no_such_day 2023 (lit "29") (lit "02")
           (lit "09") (lit "00"));
    try (split; reflexivity); try discriminate.
  - split; discriminate.
  - intros (_ & [_ H] & _). apply H. reflexivity.
Defined.

(** ** The exporter *)

Lemma conv_to_ics_event_cases (event : CalEvent) :
  conv_to_ics_event event
  = if arrow_ltb (dt_stop event) (dt_start event) then Raise ValueError
    else Ok (exported event).
Proof.
  unfold conv_to_ics_event, set_begin, set_end. cbn.
  destruct (arrow_ltb (dt_stop event) (dt_start event)); reflexivity.
Qed.

Lemma add_events_ok (e_lst : list CalEvent) :
  forall events,
    Forall ends_after_start e_lst ->
    add_events events e_lst = Ok (events ++ map exported e_lst).
Proof.
  induction e_lst as [|e e_lst IH]; intros events H; cbn [add_events map].
  - rewrite app_nil_r. reflexivity.
  - inversion H as [|? ? He Hrest]; subst.
    rewrite conv_to_ics_event_cases, He. cbn [bind].
    rewrite IH by exact Hrest. rewrite <- app_assoc. reflexivity.
Qed.

Lemma add_events_raise (e_lst : list CalEvent) :
  forall events,
    ~ Forall ends_after_start e_lst ->
    add_events events e_lst = Raise ValueError.
Proof.
  induction e_lst as [|e e_lst IH]; intros events H; cbn [add_events].
  - exfalso. apply H. constructor.
  - rewrite conv_to_ics_event_cases.
    destruct (arrow_ltb (dt_stop e) (dt_start e)) eqn:He; [reflexivity|].
    cbn [bind]. apply IH. intros Hrest. apply H. constructor; assumption.
Qed.



(** ** From the rows to the calendar *)

Lemma well_formed_group_records
      (y : N) (table_lst : list Node) (pos : nat)
      (descr room code hh1 nn1 hh2 nn2 : pystr) (cells : list Node) :
  well_formed_group y table_lst pos descr room code hh1 nn1 hh2 nn2 cells ->
  exists evs,
    process_event_rows y table_lst pos = Ok evs
    /\ Forall2 (record_of y descr room code hh1 nn1 hh2 nn2) evs
         (date_strings cells).
Proof.
  intros [Hy [Ht1 Ht2] Hdates
          (detail & dates & c0 & c1 & c2 & c3 & c4 & more & a_el
           & time_txt & room_txt & code_txt & descr_txt & ws1 & w & ws2
           & Hdetail & Hdatesrow & Hrow & Hcells & Htime & Hrange
           & Hws1 & Hw & Hws2 & Hroom & <- & Ha & Hcode & <- & Hdescr & <-)].
  destruct (@events_for_well_formed y (strip descr_txt) (strip room_txt)
              (strip code_txt) hh1 nn1 hh2 nn2 (date_strings cells)
              Hy Ht1 Ht2 (date_strings_ok Hdates)) as (evs & Hevs & Hrec).
  exists evs. split; [|exact Hrec].
  unfold process_event_rows, index.
  rewrite Hdetail. cbn [bind]. rewrite Hrow. cbn [bind].
  rewrite Hdatesrow. cbn [bind]. rewrite Hcells. cbn [bind nth_error].
  rewrite Htime, Hroom, Ha. cbn [sanitize_string deref bind].
  rewrite Hcode, Hdescr. cbn [deref bind].
  destruct Ht1 as (Hh1 & Hn1 & _), Ht2 as (Hh2 & Hn2 & _).
  rewrite Hrange, time_range_match_plain by auto using two_digits_run.
  cbn [group nth_error Nat.sub bind]. exact Hevs.
Qed.

Lemma same_day_order (y mo d h1 n1 h2 n2 : N) :
  (n1 <= 59)%N -> (n2 <= 59)%N ->
  arrow_ltb (mkArrow y mo d h2 n2) (mkArrow y mo d h1 n1)
  = (h2 * 60 + n2 <? h1 * 60 + n1)%N.
Proof.
  intros H1 H2. unfold arrow_ltb. cbn [year month day hour minute].
  rewrite !N.compare_refl.
  destruct (N.compare h2 h1) eqn:Hc.
  - apply N.compare_eq in Hc. subst h2.
    destruct (n2 <? n1)%N eqn:Hn; symmetry.
    + apply N.ltb_lt in Hn. apply N.ltb_lt. lia.
    + apply N.ltb_ge in Hn. apply N.ltb_ge. lia.
  - assert (Hlt : (h2 < h1)%N) by exact Hc.
    symmetry. apply N.ltb_lt. lia.
  - assert (Hgt : (h1 < h2)%N) by (apply N.compare_gt_iff; exact Hc).
    symmetry. apply N.ltb_ge. lia.
Qed.

(** X16.  For a well-formed event group the records of the rows reach the
    calendar exactly when the start time of the row is not after its end
    time: then the export of the records succeeds with one event per record;
    when the start time is after the end time and the group has a date,
    the export raises [ValueError]. *)
Theorem well_formed_group_export
        (y : N) (table_lst : list Node) (pos : nat)
        (descr room code hh1 nn1 hh2 nn2 : pystr) (cells : list Node) :
  well_formed_group y table_lst pos descr room code hh1 nn1 hh2 nn2 cells ->
  exists evs,
    process_event_rows y table_lst pos = Ok evs
    /\ ((minute_of_day hh1 nn1 <= minute_of_day hh2 nn2)%N ->
        conv_to_ics_calendar evs = Ok (map exported evs))
    /\ ((minute_of_day hh2 nn2 < minute_of_day hh1 nn1)%N -> evs <> [] ->
        conv_to_ics_calendar evs = Raise ValueError).
Proof.
  intros Hwf.
  destruct (well_formed_group_records Hwf) as (evs & Hevs & Hrec).
  destruct Hwf as [_ [(_ & _ & _ & Hn1) (_ & _ & _ & Hn2)] _ _].
  exists evs. split; [exact Hevs|].
  assert (Hord : Forall (fun e => arrow_ltb (dt_stop e) (dt_start e)
                                  = (minute_of_day hh2 nn2
                                     <? minute_of_day hh1 nn1)%N) evs).
  { clear Hevs. induction Hrec as [|e d evs ds (dd & mm & _ & ->) _ IH];
      constructor; [|exact IH].
    cbn [dt_start dt_stop]. apply same_day_order; assumption. }
  unfold conv_to_ics_calendar. split.
  - intros Hle. apply add_events_ok.
    apply N.ltb_ge in Hle. rewrite Hle in Hord. exact Hord.
  - intros Hlt Hne. apply add_events_raise. intros Hall.
    apply N.ltb_lt in Hlt. rewrite Hlt in Hord.
    destruct evs as [|e evs]; [congruence|].
    inversion Hord as [|? ? Ho _]; inversion Hall as [|? ? Ha _]; subst.
    unfold ends_after_start in Ha. congruence.
Qed.

Lemma well_formed_group_export_witness :
  exists evs,
    process_event_rows 2024 (scenario "10:00 to 09:00") 2 = Ok evs
    /\ ((minute_of_day (lit "10") (lit "00")
         <= minute_of_day (lit "09") (lit "00"))%N ->
        conv_to_ics_calendar evs = Ok (map exported evs))
    /\ ((minute_of_day (lit "09") (lit "00")
         < minute_of_day (lit "10") (lit "00"))%N -> evs <> [] ->
        conv_to_ics_calendar evs = Raise ValueError).
Proof.
  apply (@well_formed_group_export 2024 (scenario "10:00 to 09:00") 2
           (lit "Intro to Systems") (lit "200B") (lit "H00A0a")
           (lit "10") (lit "00") (lit "09") (lit "00")
           [td [text "18.03"]; td [text "25.03"]]).
  constructor.
  - split; discriminate.
  - split; (repeat split; try reflexivity; discriminate).
  - repeat constructor.
    + exists (lit "18"), (lit "03").
      repeat split; try reflexivity; discriminate.
    + exists (lit "25"), (lit "03").
      repeat split; try reflexivity; discriminate.
  - exists (detail_table "10:00 to 09:00"), dates_table,
      (td []), (td [text "10:00 to 09:00"]), (td [text "200B"]),
      (td [Tag (lit "a") [text "H00A0a"]]), (td [text "Intro to Systems"]),
      [], (Tag (lit "a") [text "H00A0a"]),
      (lit "10:00 to 09:00"), (lit "200B"), (lit "H00A0a"),
      (lit "Intro to Systems"), (lit " "), (lit "to"), (lit " ").
    repeat split; try reflexivity; discriminate.
Defined.
